(** * SAGE: gap-analysis aggregation, report cache and markdown rendering

    A shallow embedding of the data-transformation code of the SAGE front end
    (the two revisions of [ResultsDashboard] and the [Report] page), followed
    by the properties of that code that the specification states.

    Part I holds the definitions, translated function by function from the
    JavaScript sources.  Part II holds the lemmas and theorems. *)

From Stdlib Require Import ZArith String Ascii List Lia PrimFloat.
From Stdlib Require Import DecimalString DecimalZ DecimalPos.
From stdpp Require Import base option list sorting strings gmap.

Local Open Scope Z_scope.
Local Open Scope string_scope.
Local Open Scope list_scope.

(* ===================================================================== *)
(** * Part I: definitions *)
(* ===================================================================== *)

(** ** JavaScript values and built-ins used by the sources

    A JavaScript string is a sequence of UTF-16 code units; [length],
    [substring] and the regular expressions of the sources count and inspect
    code units.  Strings are embedded as Stdlib strings whose characters stand
    for code units below 256.  A property that may be [undefined] or [null] is
    an [option]; numbers that are only passed through or rendered are binary64
    floats ([PrimFloat.float]); counters, indices and lengths are in [Z]. *)

Module JS.

(** Rendering of a number as text ([Number.prototype.toString] and
    [toFixed]) is a built-in of the engine and not part of the sources; it
    is taken as a parameter. *)
Class NumberFormat := {
  Number_toString : float -> string;
  Number_toFixed : float -> Z -> string
}.

(** [(n).toString()] on an integer. *)
Definition Z_toString (n : Z) : string := NilZero.string_of_int (Z.to_int n).

(** Truthiness of a possibly-undefined string: [undefined], [null] and the
    empty string are falsy. *)
Definition truthy (o : option string) : bool :=
  match o with
  | Some (String _ _) => true
  | _ => false
  end.

(** Truthiness of a number: [0], [-0] and [NaN] are falsy. *)
Definition num_truthy (x : float) : bool :=
  negb (PrimFloat.eqb x 0%float || PrimFloat.is_nan x).

(** [a || b] where [b] may itself be undefined. *)
Definition or_opt (a b : option string) : option string :=
  if truthy a then a else b.

(** [a || 'literal']. *)
Definition or_else (a : option string) (d : string) : string :=
  match a with
  | Some (String c s) => String c s
  | _ => d
  end.

(** A possibly-undefined value inside a template literal. *)
Definition interpolate (o : option string) : string :=
  match o with
  | Some s => s
  | None => "undefined"
  end.

(** [s.length] *)
Definition str_length (s : string) : Z := Z.of_nat (String.length s).

(** [s.substring(a, b)]: both indices are clamped to [0 .. s.length] and
    swapped when [a > b]. *)
Definition substring (s : string) (a b : Z) : string :=
  let clamp i := Z.to_nat (Z.min (Z.max 0 i) (str_length s)) in
  let from := Nat.min (clamp a) (clamp b) in
  let to := Nat.max (clamp a) (clamp b) in
  String.substring from (to - from) s.

(** [arr.slice(0, n)] *)
Definition slice0 {A} (n : nat) (l : list A) : list A := take n l.

Definition nl : string := String "010" "".

Fixpoint str_take (k : nat) (s : string) : string :=
  match k, s with
  | S k', String a r => String a (str_take k' r)
  | _, _ => ""
  end.

Fixpoint str_drop (k : nat) (s : string) : string :=
  match k, s with
  | S k', String _ r => str_drop k' r
  | _, _ => s
  end.

Fixpoint strip_prefix (p s : string) : option string :=
  match p, s with
  | "", _ => Some s
  | String a p', String b s' =>
      if Ascii.eqb a b then strip_prefix p' s' else None
  | String _ _, "" => None
  end.

(** [s.startsWith(p)] *)
Definition startsWith (s p : string) : bool :=
  match strip_prefix p s with Some _ => true | None => false end.

(** [s.includes(p)] *)
Fixpoint includes (s p : string) : bool :=
  startsWith s p ||
  match s with
  | "" => false
  | String _ r => includes r p
  end.

Definition isLineTerminator (a : ascii) : bool :=
  Ascii.eqb a "010" || Ascii.eqb a "013".

(** White space as matched by [\s] and removed by [trim] (code units below
    256: TAB, LF, VT, FF, CR, SPACE, NBSP). *)
Definition isWhiteSpace (a : ascii) : bool :=
  let n := nat_of_ascii a in
  ((9 <=? n)%nat && (n <=? 13)%nat) || (n =? 32)%nat || (n =? 160)%nat.

Fixpoint trimStart (s : string) : string :=
  match s with
  | "" => ""
  | String a r => if isWhiteSpace a then trimStart r else s
  end.

Definition str_rev (s : string) : string :=
  string_of_list_ascii (rev (list_ascii_of_string s)).

(** [s.trim()] *)
Definition trim (s : string) : string :=
  str_rev (trimStart (str_rev (trimStart s))).

(** [s.toUpperCase()], on the letters a-z; other code units are kept. *)
Definition upper (a : ascii) : ascii :=
  let n := nat_of_ascii a in
  if ((97 <=? n)%nat && (n <=? 122)%nat) then ascii_of_nat (n - 32) else a.

Fixpoint toUpperCase (s : string) : string :=
  match s with
  | "" => ""
  | String a r => String (upper a) (toUpperCase r)
  end.

(** [arr.join(sep)] *)
Definition join (sep : string) (l : list string) : string := String.concat sep l.

(** *** Regular expressions

    The fragment of the RegExp language that the sources use: literals, the
    assertions [^] and [(?=lit)], one character of a class, and a starred
    class, greedy or lazy, possibly wrapped in a capture group.  [exec]
    follows the backtracking semantics: a greedy star tries the longest run
    first, a lazy star the shortest. *)

Inductive cclass :=
| Dot                       (* .  : anything but a line terminator (LF, CR) *)
| WhiteSpace                (* \s *)
| OneOf (cs : list ascii).  (* [...] *)

Definition in_class (c : cclass) (a : ascii) : bool :=
  match c with
  | Dot => negb (isLineTerminator a)
  | WhiteSpace => isWhiteSpace a
  | OneOf cs => existsb (Ascii.eqb a) cs
  end.

Inductive atom :=
| Lit (s : string)
| Bol (multiline : bool)
| One (c : cclass)
| Star (c : cclass) (greedy capture : bool)
| Ahead (s : string).

Definition regex := list atom.

(** Whether [^] holds, given the code unit before the current position
    ([None] at the start of the input). *)
Definition at_bol (multiline : bool) (prev : option ascii) : bool :=
  match prev with
  | None => true
  | Some a => multiline && isLineTerminator a
  end.

Fixpoint last_unit (prev : option ascii) (consumed : string) : option ascii :=
  match consumed with
  | "" => prev
  | String a r => last_unit (Some a) r
  end.

(** Length of the longest run of class [c] at the start of [s]. *)
Fixpoint span (c : cclass) (s : string) : nat :=
  match s with
  | String a r => if in_class c a then S (span c r) else O
  | "" => O
  end.

Fixpoint first_some {R} (f : nat -> option R) (ks : list nat) : option R :=
  match ks with
  | [] => None
  | k :: ks' =>
      match f k with
      | Some r => Some r
      | None => first_some f ks'
      end
  end.

(** [exec re prev s]: match [re] at the start of [s]; on success the
    captures, in order, and the text after the match. *)
Fixpoint exec (re : regex) (prev : option ascii) (s : string)
  : option (list string * string) :=
  match re with
  | [] => Some ([], s)
  | Lit l :: re' =>
      match strip_prefix l s with
      | Some rest => exec re' (last_unit prev l) rest
      | None => None
      end
  | Bol m :: re' => if at_bol m prev then exec re' prev s else None
  | One c :: re' =>
      match s with
      | String a rest => if in_class c a then exec re' (Some a) rest else None
      | "" => None
      end
  | Star c greedy capture :: re' =>
      let runs := seq 0 (S (span c s)) in
      first_some
        (fun k =>
           match exec re' (last_unit prev (str_take k s)) (str_drop k s) with
           | Some (caps, rest) =>
               Some ((if capture then [str_take k s] else []) ++ caps, rest)
           | None => None
           end)
        (if greedy then rev runs else runs)
  | Ahead l :: re' => if startsWith s l then exec re' prev s else None
  end.

(** Number of code units a successful match consumed. *)
Definition consumed (s rest : string) : nat :=
  (String.length s - String.length rest)%nat.

(** [s.replace(/re/g, new)]: scan from the left; at a match emit the
    replacement and resume after it, otherwise copy one unit. [skip] counts
    the units of the current match that are still to be passed over. *)
Fixpoint replace_from (re : regex) (new : list string -> string)
    (skip : nat) (prev : option ascii) (s : string) : string :=
  match s with
  | "" =>
      match skip, exec re prev "" with
      | O, Some (caps, _) => new caps
      | _, _ => ""
      end
  | String a rest =>
      match skip with
      | S k => replace_from re new k (Some a) rest
      | O =>
          match exec re prev s with
          | Some (caps, rest') =>
              match consumed s rest' with
              | O => new caps +:+ String a (replace_from re new 0 (Some a) rest)
              | S k => new caps +:+ replace_from re new k (Some a) rest
              end
          | None => String a (replace_from re new 0 (Some a) rest)
          end
      end
  end.

Definition replaceAll (re : regex) (new : list string -> string) (s : string) : string :=
  replace_from re new 0 None s.

(** [s.replace(/re/, new)] without the [g] flag: the first match only. *)
Fixpoint replace_first_from (re : regex) (new : list string -> string)
    (prev : option ascii) (s : string) : string :=
  match exec re prev s with
  | Some (caps, rest') => new caps +:+ rest'
  | None =>
      match s with
      | "" => ""
      | String a rest => String a (replace_first_from re new (Some a) rest)
      end
  end.

Definition replaceFirst (re : regex) (new : list string -> string) (s : string) : string :=
  replace_first_from re new None s.

(** The replacement text ['pre$1post']. *)
Definition around (pre post : string) (caps : list string) : string :=
  pre +:+ default "" (head caps) +:+ post.

(** [s.split(/re/)]: [cur] is the piece being collected since the end of the
    last separator.  A match is tried at every position before the end of
    the input; an empty match directly after the previous separator (or at
    the very start) is passed over; at a split the captures are spliced into
    the result. *)
Fixpoint split_from (re : regex) (skip : nat) (cur : string)
    (prev : option ascii) (s : string) : list string :=
  match s with
  | "" => [cur]
  | String a rest =>
      match skip with
      | S k => split_from re k "" (Some a) rest
      | O =>
          match exec re prev s with
          | Some (caps, rest') =>
              match consumed s rest', cur with
              | O, "" => split_from re 0 (String a "") (Some a) rest
              | O, _ => cur :: caps ++ split_from re 0 (String a "") (Some a) rest
              | S k, _ => cur :: caps ++ split_from re k "" (Some a) rest
              end
          | None => split_from re 0 (cur +:+ String a "") (Some a) rest
          end
      end
  end.

Definition split (re : regex) (s : string) : list string :=
  match s with
  | "" => match exec re None "" with Some _ => [] | None => [""] end
  | _ => split_from re 0 "" None s
  end.

(** [arr.sort(cmp)].  The standard requires the sort to be stable; for a
    consistent comparator the result is therefore determined, and it is
    computed here by a stable insertion sort: [x], which came before every
    element of [l], is placed before the first element it does not exceed. *)
Fixpoint sort_insert {A} (cmp : A -> A -> Z) (x : A) (l : list A) : list A :=
  match l with
  | [] => [x]
  | y :: l' => if (cmp x y <=? 0)%Z then x :: y :: l' else y :: sort_insert cmp x l'
  end.

Fixpoint sort {A} (cmp : A -> A -> Z) (l : list A) : list A :=
  match l with
  | [] => []
  | x :: l' => sort_insert cmp x (sort cmp l')
  end.

(** Completion of a function body that may throw a [TypeError] (a property
    read on [undefined]). *)
Inductive result (A : Type) :=
| Ok (a : A)
| TypeError.
Arguments Ok {A} a.
Arguments TypeError {A}.

#[global] Instance result_ret : MRet result := fun A a => Ok a.
#[global] Instance result_bind : MBind result := fun A B f r =>
  match r with
  | Ok a => f a
  | TypeError => TypeError
  end.

(** [arr.forEach(f)] for a callback that updates the enclosing state and
    may throw. *)
Fixpoint forEach {A S} (f : S -> A -> result S) (l : list A) (s : S) : result S :=
  match l with
  | [] => Ok s
  | a :: l' => s' ← f s a; forEach f l' s'
  end.

End JS.

Import JS.

(** ** The matching output received from the back end

    Only the properties that the sources read are kept.  Every property is
    read defensively in at least one place and is therefore optional. *)

Module Analysis.

Record DisclosureMatch := {
  disclosure_text : option string;
  is_strong_match : bool
}.

Record MatchedDisclosure := {
  matched_disclosure_id : option string;
  matched_disclosure_text : option string
}.

Record RegulationMatch := {
  regulation_id : option string;
  regulation_text : option string;
  best_match_score : option float;
  matched_disclosures : option (list MatchedDisclosure)
}.

Record CoverageStatistics := {
  total_regulations : option float;
  fully_covered : option float;
  coverage_percentage : option float
}.

Record GapAnalysis := {
  coverage_statistics : option CoverageStatistics;
  uncovered_regulations : option (list RegulationMatch);
  partially_covered_regulations : option (list RegulationMatch);
  covered_regulations : option (list RegulationMatch)
}.

Record Metadata := {
  meta_category : option string;
  meta_regulation_id : option string
}.

Record CategoryData := {
  metadata : option Metadata;
  disclosure_to_regulation_matches : option (list DisclosureMatch);
  regulation_to_disclosure_matches : option (list RegulationMatch);
  gap_analysis : option GapAnalysis
}.

Record Summary := {
  company_name : option string;
  report_year : option string;
  summary_regulation_id : option string;
  categories_analyzed : option float
}.

(** [detailed_results] is an object keyed by category name. *)
Record AnalysisData := {
  summary : option Summary;
  detailed_results : option (gmap string CategoryData)
}.

End Analysis.

Import Analysis.

(** ** Functions that both revisions of [ResultsDashboard] define alike *)

Module Common.

(** [truncateText] *)
Definition truncateText (text : option string) (maxLength : Z) : string :=
  match text with
  | None | Some "" => "No text available"
  | Some text =>
      if (str_length text <=? maxLength)%Z then text
      else substring text 0 maxLength +:+ "..."
  end.

(** [extractTopDisclosures] *)
Definition extractTopDisclosures (categoryData : option CategoryData) : list string :=
  match categoryData ≫= disclosure_to_regulation_matches with
  | None => ["No disclosure data available"]
  | Some matches =>
      let strongMatches :=
        (fun m => truncateText (disclosure_text m) 80)
          <$> slice0 4 (List.filter is_strong_match matches) in
      if (length strongMatches <? 4)%nat then
        let allMatches :=
          (fun m => truncateText (disclosure_text m) 80) <$> slice0 4 matches in
        allMatches
      else
        if (0 <? length strongMatches)%nat then strongMatches
        else ["No strong matches found"]
  end.

Record Stats := {
  total : option float;
  covered : option float;
  coverage : option float
}.

(** [extractCategoryStats]: [null] without gap analysis; reading the
    statistics of a gap analysis that has none throws. *)
Definition extractCategoryStats (categoryData : option CategoryData)
  : result (option Stats) :=
  match categoryData ≫= gap_analysis with
  | None => Ok None
  | Some ga =>
      match coverage_statistics ga with
      | None => TypeError
      | Some stats =>
          Ok (Some {| total := total_regulations stats;
                      covered := fully_covered stats;
                      coverage := coverage_percentage stats |})
      end
  end.

Record Bucket := {
  bucket_category : string;
  title : string;
  segments : list string;
  color : string;
  bgColor : string;
  stats : option Stats
}.

Definition bucket (dr : gmap string CategoryData)
    (letter name key color bg : string) : result Bucket :=
  st ← extractCategoryStats (dr !! key);
  mret {| bucket_category := letter; title := name;
          segments := extractTopDisclosures (dr !! key);
          color := color; bgColor := bg; stats := st |}.

(** The array [formattedEsgData] of [loadAnalysisResults]. *)
Definition formattedEsgData (dr : gmap string CategoryData) : result (list Bucket) :=
  e ← bucket dr "E" "Environmental" "environmental"
        "text-emerald-700" "bg-emerald-50 border-emerald-300";
  s ← bucket dr "S" "Social" "social"
        "text-blue-700" "bg-blue-50 border-blue-300";
  g ← bucket dr "G" "Governance" "governance"
        "text-purple-700" "bg-purple-50 border-purple-300";
  mret [e; s; g].

Record Meta := {
  companyName : string;
  reportYear : string;
  regulationId : string;
  categoriesAnalyzed : float
}.

(** The object passed to [setMetadata]. *)
Definition extractMetadata (ad : AnalysisData) : Meta :=
  {| companyName := or_else (summary ad ≫= company_name) "Company";
     reportYear := or_else (summary ad ≫= report_year) "2024";
     regulationId := or_else (summary ad ≫= summary_regulation_id) "Regulation";
     categoriesAnalyzed :=
       match summary ad ≫= categories_analyzed with
       | Some n => if num_truthy n then n else 0%float
       | None => 0%float
       end |}.

(** [location.state?.analysisData], else the parsed content of the
    [analysisResults] slot of the local storage. *)
Definition analysisSource (navigated stored : option AnalysisData) : option AnalysisData :=
  match navigated with
  | Some ad => Some ad
  | None => stored
  end.

Definition categories : list string := ["environmental"; "social"; "governance"].

End Common.

Import Common.

(** ** [ResultsDashboard], first revision: capped, numbered, status-sorted
       preview list *)

Module ResultsDashboardV1.

Inductive Status := missing | partial | complete.

#[global] Instance Status_eq_dec : EqDecision Status.
Proof. solve_decision. Defined.

Record Gap := {
  id : string;
  gap : string;
  expectation : string;
  status : Status;
  category : string;
  score : option float
}.

Definition statusPriority (s : Status) : Z :=
  match s with
  | missing => 1
  | partial => 2
  | complete => 3
  end.

Section WithFormat.
Context `{NumberFormat}.

(** The object literal pushed for one regulation. *)
Definition mkGap (gapId : Z) (category : string) (md : Metadata)
    (st : Status) (reg : RegulationMatch) : Gap :=
  {| id := Z_toString gapId;
     gap := truncateText (regulation_text reg) 60;
     expectation :=
       interpolate (meta_regulation_id md)
       +:+ " requirement - Coverage score: "
       +:+ match best_match_score reg with
           | Some x => Number_toString x
           | None => "undefined"
           end;
     status := st;
     category := category;
     score := best_match_score reg |}.

(** One [gaps.push({ id: (gapId++).toString(), ... })]; reading
    [categoryData.metadata.regulation_id] throws without metadata. *)
Definition pushGap (category : string) (categoryData : CategoryData)
    (st : Status) (acc : list Gap * Z) (reg : RegulationMatch)
  : result (list Gap * Z) :=
  match metadata categoryData with
  | None => TypeError
  | Some md => Ok (acc.1 ++ [mkGap acc.2 category md st reg], acc.2 + 1)
  end.

(** [regs?.slice(0, n).forEach(reg => gaps.push(...))] *)
Definition pushRegs (category : string) (categoryData : CategoryData)
    (st : Status) (n : nat) (regs : option (list RegulationMatch))
    (acc : list Gap * Z) : result (list Gap * Z) :=
  match regs with
  | None => Ok acc
  | Some l => forEach (pushGap category categoryData st) (slice0 n l) acc
  end.

(** The body of the loop over the categories. *)
Definition processCategory (detailedResults : gmap string CategoryData)
    (acc : list Gap * Z) (category : string) : result (list Gap * Z) :=
  match detailedResults !! category with
  | None => Ok acc
  | Some categoryData =>
      match gap_analysis categoryData with
      | None => Ok acc
      | Some gapData =>
          acc ← pushRegs category categoryData missing 3
                  (uncovered_regulations gapData) acc;
          acc ← pushRegs category categoryData partial 2
                  (partially_covered_regulations gapData) acc;
          pushRegs category categoryData complete 1
            (covered_regulations gapData) acc
      end
  end.

(** The array [gaps] and the counter [gapId] when the loop is over. *)
Definition collectGaps (detailedResults : gmap string CategoryData)
  : result (list Gap * Z) :=
  forEach (processCategory detailedResults) categories ([], 1).

Definition byStatusPriority (a b : Gap) : Z :=
  statusPriority (status a) - statusPriority (status b).

(** [extractGapAnalysis] *)
Definition extractGapAnalysis (detailedResults : gmap string CategoryData)
  : result (list Gap) :=
  acc ← collectGaps detailedResults;
  mret (slice0 10 (sort byStatusPriority acc.1)).

Record State := {
  esgData : option (list Bucket);
  gapAnalysis : list Gap;
  loading : bool;
  metadata_ : option Meta
}.

(** The component state before the first effect runs. *)
Definition initial : State :=
  {| esgData := None; gapAnalysis := []; loading := true; metadata_ := None |}.

(** [loadAnalysisResults]: an exception of the extraction is caught and
    logged; [loading] is cleared in every case. *)
Definition loadAnalysisResults (navigated stored : option AnalysisData)
    (st : State) : State :=
  match analysisSource navigated stored with
  | None =>
      {| esgData := esgData st; gapAnalysis := gapAnalysis st;
         loading := false; metadata_ := metadata_ st |}
  | Some ad =>
      let md := Some (extractMetadata ad) in
      let dr := default ∅ (detailed_results ad) in
      match formattedEsgData dr with
      | TypeError =>
          {| esgData := esgData st; gapAnalysis := gapAnalysis st;
             loading := false; metadata_ := md |}
      | Ok esg =>
          match extractGapAnalysis dr with
          | TypeError =>
              {| esgData := Some esg; gapAnalysis := gapAnalysis st;
                 loading := false; metadata_ := md |}
          | Ok gaps =>
              {| esgData := Some esg; gapAnalysis := gaps;
                 loading := false; metadata_ := md |}
          end
      end
  end.

End WithFormat.

End ResultsDashboardV1.

(** ** [ResultsDashboard], second revision: full row list for the workbook,
       seven rows on screen *)

Module ResultsDashboardV2.

(** A row built by [makeRow]. *)
Record Row := {
  category : string;
  status : string;
  regulationId : string;
  frameworkText : string;
  disclosureId : string;
  disclosureText : string;
  regulationName : string;
  coverageScore : string
}.

(** An entry of [regMap]. *)
Record RegEntry := {
  text : option string;
  entry_disclosureText : string;
  entry_disclosureId : string;
  entry_score : string
}.

(** The first matched disclosure: [r.matched_disclosures?.[0]]. *)
Definition bestDisclosure (r : RegulationMatch) : option MatchedDisclosure :=
  matched_disclosures r ≫= head.

(** The key under which [regMap[r.regulation_id] = ...] stores. *)
Definition propertyKey (k : option string) : string := interpolate k.

Section WithFormat.
Context `{NumberFormat}.

Definition regEntry (r : RegulationMatch) : RegEntry :=
  {| text := regulation_text r;
     entry_disclosureText :=
       or_else (bestDisclosure r ≫= matched_disclosure_text)
         "No matching disclosure found";
     entry_disclosureId :=
       or_else (bestDisclosure r ≫= matched_disclosure_id) "N/A";
     entry_score :=
       match best_match_score r with
       | Some x =>
           if num_truthy x then Number_toFixed (PrimFloat.mul x 100) 1
           else "N/A"
       | None => "N/A"
       end |}.

(** [regMap]: later matches of the same regulation replace earlier ones.
    The object starts empty; properties inherited from [Object.prototype]
    have none of the fields read from an entry and count as absent. *)
Definition buildRegMap (regMatches : list RegulationMatch) : gmap string RegEntry :=
  foldl (fun regMap r => <[propertyKey (regulation_id r) := regEntry r]> regMap)
    ∅ regMatches.

(** [makeRow] *)
Definition makeRow (category : string) (metadata : option Metadata)
    (regMap : gmap string RegEntry) (regObj : RegulationMatch)
    (status : string) : Row :=
  let regId := or_else (regulation_id regObj) "N/A" in
  let match_ := regMap !! regId in
  {| category := or_else (metadata ≫= meta_category) category;
     status := status;
     regulationId := regId;
     frameworkText :=
       or_else (or_opt (match_ ≫= text) (regulation_text regObj)) "N/A";
     disclosureId := or_else (entry_disclosureId <$> match_) "N/A";
     disclosureText :=
       or_else (entry_disclosureText <$> match_) "No matching disclosure found";
     regulationName := or_else (metadata ≫= meta_regulation_id) "BRSR";
     coverageScore := or_else (entry_score <$> match_) "N/A" |}.

(** The rows one category contributes: [missing], [partial], [covered]. *)
Definition categoryRows (detailedResults : gmap string CategoryData)
    (category : string) : list Row :=
  match detailedResults !! category with
  | None => []
  | Some catData =>
      match gap_analysis catData with
      | None => []
      | Some gap =>
          let regMap :=
            buildRegMap (default [] (regulation_to_disclosure_matches catData)) in
          let row status r := makeRow category (metadata catData) regMap r status in
          let missing := row "MISSING" <$> default [] (uncovered_regulations gap) in
          let partial := row "PARTIAL" <$> default [] (partially_covered_regulations gap) in
          let covered := row "COVERED" <$> default [] (covered_regulations gap) in
          missing ++ partial ++ covered
      end
  end.

(** [extractGapAnalysis] *)
Definition extractGapAnalysis (detailedResults : gmap string CategoryData)
  : list Row :=
  foldl (fun allRows category => allRows ++ categoryRows detailedResults category)
    [] categories.

Record State := {
  esgData : option (list Bucket);
  gapAnalysis : list Row;
  completeGapAnalysis : list Row;
  loading : bool;
  metadata_ : option Meta
}.

Definition initial : State :=
  {| esgData := None; gapAnalysis := []; completeGapAnalysis := [];
     loading := true; metadata_ := None |}.

(** [loadAnalysisResults] *)
Definition loadAnalysisResults (navigated stored : option AnalysisData)
    (st : State) : State :=
  match analysisSource navigated stored with
  | None =>
      {| esgData := esgData st; gapAnalysis := gapAnalysis st;
         completeGapAnalysis := completeGapAnalysis st;
         loading := false; metadata_ := metadata_ st |}
  | Some ad =>
      let md := Some (extractMetadata ad) in
      let dr := default ∅ (detailed_results ad) in
      match formattedEsgData dr with
      | TypeError =>
          {| esgData := esgData st; gapAnalysis := gapAnalysis st;
             completeGapAnalysis := completeGapAnalysis st;
             loading := false; metadata_ := md |}
      | Ok esg =>
          let allGaps := extractGapAnalysis dr in
          let displayGaps := slice0 7 allGaps in
          {| esgData := Some esg; gapAnalysis := displayGaps;
             completeGapAnalysis := allGaps;
             loading := false; metadata_ := md |}
      end
  end.

End WithFormat.

(** *** The workbook export

    The [xlsx] library is external: a sheet is recorded as the row objects
    handed to [json_to_sheet] together with its column widths, a workbook as
    the named sheets appended to it, and [writeFile] as an effect. *)

Inductive Cell :=
| Str (s : string)
| Num (n : Z).

Record Sheet := {
  rows : list (list (string * Cell));
  cols : list Z
}.

Definition Workbook := list (string * Sheet).

Inductive Effect :=
| Alert (message : string)
| WriteFile (wb : Workbook) (filename : string).

(** The object built for the row at [index] of [completeGapAnalysis]. *)
Definition excelRow (metadata : option Meta) (index : Z) (item : Row)
  : list (string * Cell) :=
  [ ("key", Num index);
    ("S.No", Num (index + 1));
    ("Category", Str (category item));
    ("Status", Str (or_else (Some (toUpperCase (status item))) "N/A"));
    ("Regulation Clause ID", Str (or_else (Some (regulationId item)) "N/A"));
    ("Framework Requirement Text", Str (or_else (Some (frameworkText item)) "N/A"));
    ("Disclosure Clause ID", Str (or_else (Some (disclosureId item)) "N/A"));
    ("Company Disclosure Text", Str (or_else (Some (disclosureText item)) "N/A"));
    ("Regulation Name",
      Str (or_else (or_opt (Some (regulationName item)) (Common.regulationId <$> metadata)) "N/A"));
    ("Coverage Score (%)", Str (or_else (Some (coverageScore item)) "N/A")) ].

(** [arr.filter(g => g.status === s).length] *)
Definition countStatus (s : string) (l : list Row) : Z :=
  Z.of_nat (length (List.filter (fun g => String.eqb (status g) s) l)).

Definition summaryData (metadata : option Meta) (completeGapAnalysis : list Row)
  : list (list (string * Cell)) :=
  let metric name value := [("Metric", Str name); ("Value", value)] in
  [ metric "Company Name" (Str (or_else (companyName <$> metadata) "N/A"));
    metric "Report Year" (Str (or_else (reportYear <$> metadata) "N/A"));
    metric "Regulation" (Str (or_else (Common.regulationId <$> metadata) "N/A"));
    metric "Total Regulations Analyzed" (Num (Z.of_nat (length completeGapAnalysis)));
    metric "Missing Coverage" (Num (countStatus "missing" completeGapAnalysis));
    metric "Partial Coverage" (Num (countStatus "partial" completeGapAnalysis));
    metric "Complete Coverage" (Num (countStatus "complete" completeGapAnalysis)) ].

Definition filename (metadata : option Meta) (fullYear : Z) : string :=
  "Gap_Analysis_" +:+ or_else (companyName <$> metadata) "Report" +:+ "_"
  +:+ (if truthy (reportYear <$> metadata)
       then or_else (reportYear <$> metadata) ""
       else Z_toString fullYear)
  +:+ ".xlsx".

(** [downloadExcel]; [fullYear] is [new Date().getFullYear()]. *)
Definition downloadExcel (st : State) (fullYear : Z) : Effect :=
  match completeGapAnalysis st with
  | [] => Alert "No gap analysis data available to download"
  | _ =>
      let excelData :=
        imap (fun index item => excelRow (metadata_ st) (Z.of_nat index) item)
          (completeGapAnalysis st) in
      let ws := {| rows := excelData;
                   cols := [6; 15; 12; 20; 50; 20; 50; 15; 18; 12] |} in
      let wsSummary :=
        {| rows := summaryData (metadata_ st) (completeGapAnalysis st);
           cols := [30; 20] |} in
      let wb := [("Gap Analysis", ws); ("Summary", wsSummary)] in
      WriteFile wb (filename (metadata_ st) fullYear)
  end.

End ResultsDashboardV2.

(** ** The [Report] page: cached report and markdown rendering *)

Module ReportPage.

Record CategoryReport := {
  report_category : option string;
  coverage_percentage : option float;
  report_length : option float;
  report_markdown : option string
}.

(** The body of the reply to [/generate-report]. *)
Record Payload := {
  overall_compliance_score : option float;
  key_missing_areas : option (list string);
  suggested_actions : option (list string);
  reports : option (list (string * CategoryReport));
  detail : option string
}.

(** The report as kept in the [complianceReport] slot of the local storage
    and in the component state: the payload with a [timestamp].  The
    timestamp is written by [toISOString] and read back by
    [new Date(..).getTime()], which returns the same instant in
    milliseconds; it is held as that number, [None] standing for a missing
    or unreadable timestamp (whose time value is [NaN]). *)
Record ReportData := {
  data : Payload;
  timestamp : option Z
}.

Record State := {
  loading : bool;
  reportData : option ReportData;
  error : option string;
  generating : bool;
  complianceReport : option ReportData
}.

Definition initial : State :=
  {| loading := true; reportData := None; error := None;
     generating := false; complianceReport := None |}.

(** Outcome of [fetch] followed by [response.json()]. *)
Inductive Response :=
| Replied (ok : bool) (body : Payload)
| Failed (message : string).

(** [generateReport]: the new state and, when it throws, the message of the
    error.  [now] is the time read by [new Date()]. *)
Definition generateReport (response : Response) (now : Z) (st : State)
  : State * option string :=
  let finish reportData stored :=
    {| loading := loading st; reportData := reportData; error := error st;
       generating := false; complianceReport := stored |} in
  match response with
  | Failed message => (finish (reportData st) (complianceReport st), Some message)
  | Replied false body =>
      (finish (reportData st) (complianceReport st),
       Some (or_else (detail body) "Failed to generate report"))
  | Replied true body =>
      let reportWithTimestamp := {| data := body; timestamp := Some now |} in
      (finish (Some reportWithTimestamp) (Some reportWithTimestamp), None)
  end.

(** The first half of [loadOrGenerateReport]: the stored report when there
    is one and [reportAge < 3600000]; a [NaN] age compares false. *)
Definition cachedReport (now : Z) (storedReport : option ReportData)
  : option ReportData :=
  match storedReport with
  | Some parsed =>
      match timestamp parsed with
      | Some t =>
          let reportAge := now - t in
          if (reportAge <? 3600000)%Z then Some parsed else None
      | None => None
      end
  | None => None
  end.

(** [loadOrGenerateReport]; [now] is [Date.now()], [response] and [later]
    are what [generateReport] receives if it runs. *)
Definition loadOrGenerateReport (now : Z) (response : Response) (later : Z)
    (st : State) : State :=
  match cachedReport now (complianceReport st) with
  | Some parsed =>
      {| loading := false; reportData := Some parsed; error := None;
         generating := generating st; complianceReport := complianceReport st |}
  | None =>
      let cleared :=
        {| loading := true; reportData := reportData st; error := None;
           generating := generating st; complianceReport := complianceReport st |} in
      let '(st', thrown) := generateReport response later cleared in
      {| loading := false; reportData := reportData st';
         error := match thrown with Some message => Some message | None => error st' end;
         generating := generating st'; complianceReport := complianceReport st' |}
  end.

(** [handleRegenerateReport] *)
Definition handleRegenerateReport (now : Z) (response : Response) (later : Z)
    (st : State) : State :=
  loadOrGenerateReport now response later
    {| loading := loading st; reportData := reportData st; error := error st;
       generating := generating st; complianceReport := None |}.

(** [convertMarkdownToHTML] *)
Definition convertMarkdownToHTML (markdown : option string) : string :=
  match markdown with
  | None | Some "" => ""
  | Some markdown =>
      let s := replaceAll [Lit "### "; Star Dot true true] (around "<h3>" "</h3>") markdown in
      let s := replaceAll [Lit "## "; Star Dot true true] (around "<h2>" "</h2>") s in
      let s := replaceAll [Lit "# "; Star Dot true true] (around "<h1>" "</h1>") s in
      let s := replaceAll [Lit "**"; Star Dot false true; Lit "**"]
                 (around "<strong>" "</strong>") s in
      let s := replaceAll [Bol true; Lit "* "; Star Dot true true] (around "<li>" "</li>") s in
      let s := replaceAll [Bol true; Lit "- "; Star Dot true true] (around "<li>" "</li>") s in
      let s := replaceAll [Lit (nl +:+ nl)] (fun _ => "</p><p>") s in
      replaceAll [Lit nl] (fun _ => "<br>") s
  end.

(** What [renderMarkdown] returns, without the presentation classes. *)
Inductive Inline :=
| Text (s : string)
| Strong (s : string).

Inductive Element :=
| Br
| P (children : list Inline)
| Li (s : string).

Record SectionView := {
  heading : option string;
  body : list Element
}.

(** [parts.map((part, i) => i % 2 === 1 ? <strong>{part}</strong> : part)] *)
Definition boldParts (parts : list string) : list Inline :=
  imap (fun i part => if Nat.odd i then Strong part else Text part) parts.

(** The callback of [content.split('\n').map(...)]. *)
Definition renderLine (line : string) : Element :=
  match trim line with
  | "" => Br
  | _ =>
      if includes line "**" then
        P (boldParts (split [Lit "**"; Star Dot false true; Lit "**"] line))
      else if startsWith (trim line) "*" || startsWith (trim line) "-" then
        Li (replaceFirst [Bol false; One (OneOf ["*"; "-"]%char); Star WhiteSpace true false]
              (fun _ => "") line)
      else P [Text line]
  end.

(** The callback of [sections.map(...)]; [None] is [null]. *)
Definition renderSection (section : string) : option SectionView :=
  match trim section with
  | "" => None
  | _ =>
      let lines := split [Lit nl] section in
      let first := default "" (head lines) in
      let isHeader := startsWith first "###" in
      let header :=
        if isHeader
        then replaceFirst [Bol false; Lit "###"; Star WhiteSpace true false]
               (fun _ => "") first
        else "" in
      let content := if isHeader then join nl (tail lines) else section in
      Some {| heading := if truthy (Some header) then Some header else None;
              body := renderLine <$> split [Lit nl] content |}
  end.

(** [renderMarkdown] *)
Definition renderMarkdown (markdown : option string)
  : option (list (option SectionView)) :=
  match markdown with
  | None | Some "" => None
  | Some markdown => Some (renderSection <$> split [Ahead "###"] markdown)
  end.

End ReportPage.

(** ** What the dashboard renders from its state *)

Module DashboardView.

(** [getStatusIcon]: the icon component and its class; [None] is [null]. *)
Definition getStatusIcon (status : string) : option (string * string) :=
  if String.eqb status "complete" then Some ("CheckCircle", "w-5 h-5 text-emerald-600")
  else if String.eqb status "partial" then Some ("AlertTriangle", "w-5 h-5 text-amber-600")
  else if String.eqb status "missing" then Some ("XCircle", "w-5 h-5 text-red-600")
  else None.

(** [getStatusColor] *)
Definition getStatusColor (status : string) : string :=
  if String.eqb status "complete" then "bg-emerald-50 border-emerald-300"
  else if String.eqb status "partial" then "bg-amber-50 border-amber-300"
  else if String.eqb status "missing" then "bg-red-50 border-red-300"
  else "bg-slate-50 border-slate-300".

(** The colours of the status badge of a card. *)
Definition badgeClass (status : string) : string :=
  if String.eqb status "complete" then "bg-emerald-100 text-emerald-700"
  else if String.eqb status "partial" then "bg-amber-100 text-amber-700"
  else "bg-red-100 text-red-700".

(** The gap panel of the second revision: the placeholder when the view list
    is empty, else one card per record of the view list and, when the
    complete list has more than seven records, the notice under the cards. *)
Inductive GapPanel :=
| NoGaps
| GapCards (cards : list ResultsDashboardV2.Row) (notice : option string).

Definition gapPanel (st : ResultsDashboardV2.State) : GapPanel :=
  match ResultsDashboardV2.gapAnalysis st with
  | [] => NoGaps
  | cards =>
      let n := length (ResultsDashboardV2.completeGapAnalysis st) in
      GapCards cards
        (if (7 <? n)%nat
         then Some ("Showing 7 of " +:+ Z_toString (Z.of_nat n)
                    +:+ " regulations. Download the full report for complete analysis.")
         else None)
  end.

End DashboardView.

(** ** What the report page renders in its summary card *)

Module ReportView.

(** [text.length > limit ? text.substring(0, limit) + '...' : text] *)
Definition shorten (limit : Z) (text : string) : string :=
  if (limit <? str_length text)%Z then substring text 0 limit +:+ "..." else text.

(** The texts under "Key Gaps": [keyMissingAreas.slice(0, 5)], shortened. *)
Definition keyGaps (r : ReportPage.ReportData) : list string :=
  shorten 120
    <$> slice0 5 (default [] (ReportPage.key_missing_areas (ReportPage.data r))).

(** The numbered texts under "Priority Actions":
    [suggestedActions.slice(0, 6)], shortened, with [idx + 1]. *)
Definition priorityActions (r : ReportPage.ReportData) : list (Z * string) :=
  imap (fun idx action => (Z.of_nat idx + 1, shorten 150 action))
    (slice0 6 (default [] (ReportPage.suggested_actions (ReportPage.data r)))).

End ReportView.

(** ** Vocabulary of the properties *)

(** Order of two elements by a numeric key. *)
Definition key_le {A} (key : A -> Z) (a b : A) : Prop := key a <= key b.

(** Number of records of category [c] and status [s] (first revision). *)
Definition countOf (c : string) (s : ResultsDashboardV1.Status)
    (l : list ResultsDashboardV1.Gap) : nat :=
  length (filter (fun g => ResultsDashboardV1.category g = c
                           /\ ResultsDashboardV1.status g = s) l).

(** The most records of one status that a category may contribute. *)
Definition cap (s : ResultsDashboardV1.Status) : nat :=
  match s with
  | ResultsDashboardV1.missing => 3
  | ResultsDashboardV1.partial => 2
  | ResultsDashboardV1.complete => 1
  end.

(** The ids, read as numbers, increase strictly along the list. *)
Definition ids_increasing (l : list ResultsDashboardV1.Gap) : Prop :=
  exists ns : list Z,
    ResultsDashboardV1.id <$> l = Z_toString <$> ns /\ StronglySorted Z.lt ns.

(** [new] is what a run of pushes adds to the accumulator [acc] of the first
    revision: records numbered consecutively from the counter of [acc]. *)
Definition appended (acc acc' : list ResultsDashboardV1.Gap * Z)
    (new : list ResultsDashboardV1.Gap) : Prop :=
  acc' = (acc.1 ++ new, acc.2 + Z.of_nat (length new))
  /\ ResultsDashboardV1.id <$> new
     = Z_toString <$> seqZ acc.2 (Z.of_nat (length new)).

(** Following the specification: the triage priority of a status, missing (1)
    before partial (2) before complete (3).  The rows of the second revision
    carry the labels [MISSING], [PARTIAL] and [COVERED]. *)
Definition rowPriority (r : ResultsDashboardV2.Row) : Z :=
  if String.eqb (ResultsDashboardV2.status r) "MISSING" then 1
  else if String.eqb (ResultsDashboardV2.status r) "PARTIAL" then 2
  else 3.

Definition byRowPriority (a b : ResultsDashboardV2.Row) : Z :=
  rowPriority a - rowPriority b.

(** Following the specification: the display subset is the first seven
    records of the complete list after the stable status sort. *)
Definition specDisplay (complete : list ResultsDashboardV2.Row)
  : list ResultsDashboardV2.Row :=
  take 7 (sort byRowPriority complete).

(** The cell stored under [name] in a row object. *)
Definition field (name : string) (row : list (string * ResultsDashboardV2.Cell))
  : option ResultsDashboardV2.Cell :=
  snd <$> List.find (fun kv => String.eqb (fst kv) name) row.

(** The rows of the sheet appended under [name], if a workbook is written. *)
Definition writtenRows (name : string) (e : ResultsDashboardV2.Effect)
  : list (list (string * ResultsDashboardV2.Cell)) :=
  match e with
  | ResultsDashboardV2.WriteFile wb _ =>
      default [] ((fun sheet => ResultsDashboardV2.rows (snd sheet))
                    <$> List.find (fun sheet => String.eqb (fst sheet) name) wb)
  | ResultsDashboardV2.Alert _ => []
  end.

(** The regulations the first revision selects from one gap analysis, with
    the status each is given. *)
Definition selectedRegulations (ga : GapAnalysis)
  : list (ResultsDashboardV1.Status * RegulationMatch) :=
  (pair ResultsDashboardV1.missing <$> take 3 (default [] (uncovered_regulations ga)))
  ++ (pair ResultsDashboardV1.partial
        <$> take 2 (default [] (partially_covered_regulations ga)))
  ++ (pair ResultsDashboardV1.complete <$> take 1 (default [] (covered_regulations ga))).

(** The selected regulations of one category, tagged with its name. *)
Definition selectedOf (dr : gmap string CategoryData) (c : string)
  : list (string * ResultsDashboardV1.Status * RegulationMatch) :=
  match dr !! c ≫= gap_analysis with
  | Some ga => (fun p => (c, p.1, p.2)) <$> selectedRegulations ga
  | None => []
  end.

(** What a record of the first revision says about its regulation. *)
Definition recordShape (g : ResultsDashboardV1.Gap)
  : string * ResultsDashboardV1.Status * string * option float :=
  (ResultsDashboardV1.category g, ResultsDashboardV1.status g,
   ResultsDashboardV1.gap g, ResultsDashboardV1.score g).

Definition expectedShape (p : string * ResultsDashboardV1.Status * RegulationMatch)
  : string * ResultsDashboardV1.Status * string * option float :=
  (p.1.1, p.1.2, truncateText (regulation_text p.2) 60, best_match_score p.2).

(** The regulations the second revision lists for one category, with the
    label each is given. *)
Definition listedOf (dr : gmap string CategoryData) (c : string)
  : list (string * RegulationMatch) :=
  match dr !! c ≫= gap_analysis with
  | Some ga =>
      (pair "MISSING" <$> default [] (uncovered_regulations ga))
      ++ (pair "PARTIAL" <$> default [] (partially_covered_regulations ga))
      ++ (pair "COVERED" <$> default [] (covered_regulations ga))
  | None => []
  end.

(** The character [c] occurs in [s]. *)
Definition occurs (c : ascii) (s : string) : Prop := In c (list_ascii_of_string s).

(** The aggregation of the first revision has to read the metadata of
    category [c] and finds none: the category has a gap analysis that
    selects at least one regulation, and no metadata. *)
Definition throwsFor (dr : gmap string CategoryData) (c : string) : Prop :=
  exists cd ga,
    dr !! c = Some cd /\ gap_analysis cd = Some ga
    /\ metadata cd = None /\ selectedRegulations ga <> [].

(** A category has a gap analysis without coverage statistics. *)
Definition lacksStatistics (dr : gmap string CategoryData) (c : string) : Prop :=
  exists cd ga,
    dr !! c = Some cd /\ gap_analysis cd = Some ga /\ coverage_statistics ga = None.

(** The column names of the sheet "Gap Analysis", in order. *)
Definition gapSheetColumns : list string :=
  ["key"; "S.No"; "Category"; "Status"; "Regulation Clause ID";
   "Framework Requirement Text"; "Disclosure Clause ID";
   "Company Disclosure Text"; "Regulation Name"; "Coverage Score (%)"].

(** ** Sample inputs *)

(** A stand-in for the number rendering of the engine, to run the
    definitions on inputs whose outcome does not depend on it. *)
Definition plainFormat : NumberFormat :=
  {| Number_toString := fun _ => "0"; Number_toFixed := fun _ _ => "0.0" |}.

Definition sampleMatch (t : string) (strong : bool) : DisclosureMatch :=
  {| disclosure_text := Some t; is_strong_match := strong |}.

Definition sampleCategory (ms : option (list DisclosureMatch)) : CategoryData :=
  {| metadata := None; disclosure_to_regulation_matches := ms;
     regulation_to_disclosure_matches := None; gap_analysis := None |}.

(** Five matches, the first and the third strong. *)
Definition sampleMatches : list DisclosureMatch :=
  [sampleMatch "d1" true; sampleMatch "d2" false; sampleMatch "d3" true;
   sampleMatch "d4" false; sampleMatch "d5" false].

Definition sampleRegulation (rid text : string) : RegulationMatch :=
  {| regulation_id := Some rid; regulation_text := Some text;
     best_match_score := None; matched_disclosures := None |}.

Definition sampleGapCategory (uncovered partially covered : list RegulationMatch)
  : CategoryData :=
  {| metadata := Some {| meta_category := None; meta_regulation_id := Some "BRSR" |};
     disclosure_to_regulation_matches := None;
     regulation_to_disclosure_matches := None;
     gap_analysis :=
       Some {| coverage_statistics :=
                 Some {| total_regulations := None; fully_covered := None;
                         coverage_percentage := None |};
               uncovered_regulations := Some uncovered;
               partially_covered_regulations := Some partially;
               covered_regulations := Some covered |} |}.

(** One covered environmental regulation, one uncovered social one. *)
Definition sampleResults : gmap string CategoryData :=
  <["environmental" := sampleGapCategory [] [] [sampleRegulation "E1" "Energy use"]]>
    (<["social" := sampleGapCategory [sampleRegulation "S1" "Fair wages"] [] []]> ∅).

(** Four uncovered environmental regulations. *)
Definition fourUncovered : gmap string CategoryData :=
  <["environmental" :=
      sampleGapCategory [sampleRegulation "E1" "Energy use"; sampleRegulation "E2" "Water use";
                         sampleRegulation "E3" "Waste"; sampleRegulation "E4" "Emissions"] [] []]> ∅.

Definition sampleAnalysis : AnalysisData :=
  {| summary := Some {| company_name := Some "Acme"; report_year := Some "2024";
                        summary_regulation_id := Some "BRSR";
                        categories_analyzed := None |};
     detailed_results := Some sampleResults |}.

Definition samplePayload : ReportPage.Payload :=
  {| ReportPage.overall_compliance_score := None;
     ReportPage.key_missing_areas := Some ["Scope 3 emissions"];
     ReportPage.suggested_actions := None;
     ReportPage.reports := None;
     ReportPage.detail := None |}.

(** A report generated at the instant 1000. *)
Definition sampleReport : ReportPage.ReportData :=
  {| ReportPage.data := samplePayload; ReportPage.timestamp := Some 1000 |}.

(** The text ["### Title\n**Bold** text\n* item1\n* item2"]. *)
Definition titleBoldItems : string :=
  "### Title" +:+ nl +:+ "**Bold** text" +:+ nl +:+ "* item1" +:+ nl +:+ "* item2".

(** The metadata of the sample categories. *)
Definition sampleMetadata : Metadata :=
  {| meta_category := None; meta_regulation_id := Some "BRSR" |}.

(** A text with markup characters that are not markdown. *)
Definition sampleHtmlText : string := "<b>Scope 3</b> & more".

(** A social category with one uncovered regulation and no metadata. *)
Definition noMetadataResults : gmap string CategoryData :=
  <["social" :=
      {| metadata := None;
         disclosure_to_regulation_matches := None;
         regulation_to_disclosure_matches := None;
         gap_analysis :=
           Some {| coverage_statistics :=
                     Some {| total_regulations := None; fully_covered := None;
                             coverage_percentage := None |};
                   uncovered_regulations := Some [sampleRegulation "S1" "Fair wages"];
                   partially_covered_regulations := None;
                   covered_regulations := None |} |}]> ∅.

(* ===================================================================== *)
(** * Part II: properties *)
(* ===================================================================== *)

(** ** Regular expressions on small inputs *)

Lemma replaceAll_heading :
  replaceAll [Lit "### "; Star Dot true true] (around "<h3>" "</h3>")
    ("a ### T x" +:+ nl +:+ "b") = "a <h3>T x</h3>" +:+ nl +:+ "b".
Proof. vm_compute. reflexivity. Qed.

Lemma replaceAll_lazy_bold :
  replaceAll [Lit "**"; Star Dot false true; Lit "**"] (around "<b>" "</b>")
    "x **a** y **b c** ** z" = "x <b>a</b> y <b>b c</b> ** z".
Proof. vm_compute. reflexivity. Qed.

Lemma split_lookahead_and_captures :
  split [Ahead "###"] "###a###b" = ["###a"; "###b"]
  /\ split [Ahead "###"] "x###a" = ["x"; "###a"]
  /\ split [Lit "**"; Star Dot false true; Lit "**"] "**B** t" = [""; "B"; " t"]
  /\ split [Lit nl] ("a" +:+ nl +:+ nl +:+ "b" +:+ nl) = ["a"; ""; "b"; ""].
Proof. vm_compute. repeat split; reflexivity. Qed.

(** ** Strings *)

Lemma append_String (a : ascii) (s t : string) :
  String a s +:+ t = String a (s +:+ t).
Proof. reflexivity. Qed.

Lemma str_take_drop (k : nat) (s : string) : str_take k s +:+ str_drop k s = s.
Proof.
  revert s; induction k as [|k IH]; intros [|a s]; simpl; try reflexivity.
  now rewrite append_String, IH.
Qed.

Lemma str_take_length (k : nat) (s : string) :
  (k <= String.length s)%nat -> String.length (str_take k s) = k.
Proof.
  revert s; induction k as [|k IH]; intros [|a s]; simpl; intros Hk;
    try reflexivity; try lia.
  rewrite IH; [reflexivity | lia].
Qed.

Lemma substring_from_start (k : nat) (s : string) :
  String.substring 0 k s = str_take k s.
Proof.
  revert s; induction k as [|k IH]; intros [|a s]; simpl; try reflexivity.
  now rewrite IH.
Qed.

Lemma append_length (s t : string) :
  String.length (s +:+ t) = (String.length s + String.length t)%nat.
Proof.
  induction s as [|a s IH]; [reflexivity|].
  rewrite append_String. simpl. now rewrite IH.
Qed.

Lemma substring_prefix (s : string) (n : Z) :
  0 <= n <= str_length s -> substring s 0 n = str_take (Z.to_nat n) s.
Proof.
  intros Hn. unfold substring, str_length in *.
  rewrite (Z.max_l 0 0) by lia. rewrite (Z.min_l 0) by lia.
  rewrite (Z.max_r 0 n) by lia. rewrite (Z.min_l n) by lia.
  change (Z.to_nat 0) with O. rewrite Nat.min_0_l, Nat.max_0_l, Nat.sub_0_r.
  apply substring_from_start.
Qed.

(** ** Excerpts and the disclosure sampler *)

(** C10.  For a character budget [n >= 0]: a non-empty text of at most [n]
    characters is returned unchanged; a longer text is cut to its first [n]
    characters followed by ["..."], so that the result has [n + 3]
    characters; a null, undefined or empty text gives the fixed sentinel
    ["No text available"]. *)
Theorem truncateText_budget (s : string) (n : Z) :
  0 <= n ->
  (s <> "" -> str_length s <= n -> truncateText (Some s) n = s)
  /\ (n < str_length s ->
      (exists pre post, s = pre +:+ post /\ str_length pre = n
                        /\ truncateText (Some s) n = pre +:+ "...")
      /\ str_length (truncateText (Some s) n) = n + 3)
  /\ truncateText None n = "No text available"
  /\ truncateText (Some "") n = "No text available".
Proof.
  intros Hn. repeat split.
  - intros Hs Hlen. unfold truncateText. destruct s as [|a s]; [congruence|].
    destruct (Z.leb_spec (str_length (String a s)) n); [reflexivity | lia].
  - exists (str_take (Z.to_nat n) s), (str_drop (Z.to_nat n) s).
    assert (Hcut : truncateText (Some s) n = str_take (Z.to_nat n) s +:+ "...").
    { unfold truncateText. destruct s as [|a s]; [unfold str_length in *; simpl in *; lia|].
      destruct (Z.leb_spec (str_length (String a s)) n); [lia|].
      rewrite substring_prefix by lia. reflexivity. }
    split; [now rewrite str_take_drop|]. split; [|exact Hcut].
    unfold str_length in *. rewrite str_take_length; lia.
  - unfold truncateText. destruct s as [|a s]; [unfold str_length in *; simpl in *; lia|].
    destruct (Z.leb_spec (str_length (String a s)) n); [lia|].
    rewrite substring_prefix by lia.
    unfold str_length in *. rewrite append_length, str_take_length by lia.
    simpl. lia.
Qed.

Lemma truncateText_budget_witness :
  str_length (truncateText (Some "regulation") 4) = 4 + 3
  /\ truncateText (Some "regu") 4 = "regu".
Proof.
  assert (H0 : 0 <= 4) by lia.
  destruct (truncateText_budget "regulation" 4 H0) as (_ & Hlong & _).
  destruct (truncateText_budget "regu" 4 H0) as (Hshort & _).
  split.
  - apply Hlong. vm_compute. reflexivity.
  - apply Hshort; [discriminate | vm_compute; discriminate].
Defined.

(** C4.  When fewer than four matches are strong, the sampler returns the
    excerpts of the first four matches overall, in received order, whatever
    their strength. *)
Theorem extractTopDisclosures_fallback (cd : CategoryData) (ms : list DisclosureMatch) :
  disclosure_to_regulation_matches cd = Some ms ->
  (length (List.filter is_strong_match ms) < 4)%nat ->
  extractTopDisclosures (Some cd)
  = (fun m => truncateText (disclosure_text m) 80) <$> take 4 ms.
Proof.
  intros Hms Hstrong. unfold extractTopDisclosures.
  change (Some cd ≫= disclosure_to_regulation_matches)
    with (disclosure_to_regulation_matches cd).
  rewrite Hms. unfold slice0. rewrite length_fmap, length_take.
  destruct (Nat.ltb_spec (Nat.min 4 (length (List.filter is_strong_match ms))) 4);
    [reflexivity | lia].
Qed.

(** Two strong matches among five: the first four of the five come back. *)
Lemma extractTopDisclosures_fallback_witness :
  extractTopDisclosures (Some (sampleCategory (Some sampleMatches)))
  = ["d1"; "d2"; "d3"; "d4"].
Proof.
  assert (Hstrong : (length (List.filter is_strong_match sampleMatches) < 4)%nat)
    by (simpl; lia).
  exact (extractTopDisclosures_fallback
           (sampleCategory (Some sampleMatches)) sampleMatches eq_refl Hstrong).
Defined.

(** C5 (as the code behaves).  A category whose
    [disclosure_to_regulation_matches] is the empty array gets the empty
    list, not a sentinel: the array is truthy, no match is strong, and the
    fallback returns the first four of no matches.  Only an absent category
    or an absent array gives the sentinel. *)
Theorem extractTopDisclosures_empty_array
    (md : option Metadata) (rm : option (list RegulationMatch)) (ga : option GapAnalysis) :
  extractTopDisclosures
    (Some {| metadata := md; disclosure_to_regulation_matches := Some [];
             regulation_to_disclosure_matches := rm; gap_analysis := ga |}) = []
  /\ extractTopDisclosures
       (Some {| metadata := md; disclosure_to_regulation_matches := None;
                regulation_to_disclosure_matches := rm; gap_analysis := ga |})
     = ["No disclosure data available"]
  /\ extractTopDisclosures None = ["No disclosure data available"].
Proof. repeat split. Qed.

(** ** The report cache *)

Section report_page.
Import ReportPage.

(** C6.  A stored report is served exactly when its age is under one hour;
  at one hour or more the load behaves as with an empty slot and the report
  is generated anew.  In particular a report stored at [t0] is served 59
  minutes later and not served 61 minutes later. *)
Theorem report_cache_freshness (r : ReportData) (t now : Z) :
timestamp r = Some t ->
(cachedReport now (Some r) = Some r <-> now - t < 3600000)
/\ (3600000 <= now - t -> cachedReport now (Some r) = cachedReport now None)
/\ (forall response later st,
      complianceReport st = Some r ->
      now - t < 3600000 ->
      loadOrGenerateReport now response later st
      = {| loading := false; reportData := Some r; error := None;
           generating := generating st; complianceReport := Some r |})
/\ (forall body later st,
      complianceReport st = Some r ->
      3600000 <= now - t ->
      let fresh := {| data := body; timestamp := Some later |} in
      loadOrGenerateReport now (Replied true body) later st
      = {| loading := false; reportData := Some fresh; error := None;
           generating := false; complianceReport := Some fresh |})
/\ (forall body t0 st,
      let stored := complianceReport (generateReport (Replied true body) t0 st).1 in
      stored = Some {| data := body; timestamp := Some t0 |}
      /\ cachedReport (t0 + 59 * 60 * 1000) stored = stored
      /\ cachedReport (t0 + 61 * 60 * 1000) stored = None).
Proof.
intros Ht.
assert (Hfresh : now - t < 3600000 -> cachedReport now (Some r) = Some r).
{ intros Hage. unfold cachedReport. rewrite Ht.
  destruct (Z.ltb_spec (now - t) 3600000); [reflexivity | lia]. }
assert (Hstale : 3600000 <= now - t -> cachedReport now (Some r) = None).
{ intros Hage. unfold cachedReport. rewrite Ht.
  destruct (Z.ltb_spec (now - t) 3600000); [lia | reflexivity]. }
split; [|split; [|split; [|split]]].
- split; [|exact Hfresh].
  intros Hsome. destruct (Z.lt_ge_cases (now - t) 3600000) as [|Hge]; [assumption|].
  rewrite (Hstale Hge) in Hsome. discriminate.
- intros Hage. now rewrite Hstale.
- intros response later st Hst Hage. unfold loadOrGenerateReport.
  rewrite Hst, (Hfresh Hage). reflexivity.
- intros body later st Hst Hage. unfold loadOrGenerateReport.
  rewrite Hst, (Hstale Hage). reflexivity.
- intros body t0 st. cbn. repeat split.
  + destruct (Z.ltb_spec (t0 + 59 * 60 * 1000 - t0) 3600000); [reflexivity | lia].
  + destruct (Z.ltb_spec (t0 + 61 * 60 * 1000 - t0) 3600000); [lia | reflexivity].
Qed.

(** A report generated at instant 1000 and read 59 minutes later. *)
Lemma report_cache_freshness_witness :
cachedReport (1000 + 59 * 60 * 1000) (Some sampleReport) = Some sampleReport.
Proof.
apply (report_cache_freshness sampleReport 1000 (1000 + 59 * 60 * 1000) eq_refl).
lia.
Defined.

(** ** Markdown rendering *)

Lemma titleBoldItems_html :
convertMarkdownToHTML (Some titleBoldItems)
= "<h3>Title</h3><br><strong>Bold</strong> text<br><li>item1</li><br><li>item2</li>".
Proof. vm_compute. reflexivity. Qed.

(** C7 (as claimed, refuted).  The interactive rendering is as claimed, but
  the document rendering is not [<h3>Title</h3>] followed, directly or
  after anything else, by
  [<strong>Bold</strong> text<br><li>item1</li><li>item2</li>]. *)
Lemma markdown_document_mode_not_as_claimed :
~ (renderMarkdown (Some titleBoldItems)
   = Some [Some {| heading := Some "Title";
                   body := [P [Text ""; Strong "Bold"; Text " text"];
                            Li "item1"; Li "item2"] |}]
   /\ exists between,
        convertMarkdownToHTML (Some titleBoldItems)
        = "<h3>Title</h3>" +:+ between
          +:+ "<strong>Bold</strong> text<br><li>item1</li><li>item2</li>").
Proof.
intros [_ [between Hdoc]]. rewrite titleBoldItems_html in Hdoc.
assert (Hlen : String.length between = 8%nat).
{ apply (f_equal String.length) in Hdoc.
  rewrite !append_length in Hdoc. simpl in Hdoc. lia. }
do 9 (destruct between as [|? between]; try discriminate Hlen).
vm_compute in Hdoc. discriminate Hdoc.
Qed.

(** C7 (amended).  Interactive mode gives one section titled "Title" holding
  a paragraph with the emphasized span "Bold" and the list items "item1"
  and "item2"; document mode turns every newline that is left into [<br>],
  also the one after the heading and the one between the list items. *)
Theorem markdown_example_rendering :
renderMarkdown (Some titleBoldItems)
= Some [Some {| heading := Some "Title";
                body := [P [Text ""; Strong "Bold"; Text " text"];
                         Li "item1"; Li "item2"] |}]
/\ convertMarkdownToHTML (Some titleBoldItems)
   = "<h3>Title</h3><br><strong>Bold</strong> text<br><li>item1</li><br><li>item2</li>".
Proof. split; [vm_compute; reflexivity | exact titleBoldItems_html]. Qed.

End report_page.

(** ** The stable sort *)

Section sort_facts.
Context {A : Type} (cmp : A -> A -> Z) (key : A -> Z).
Hypothesis cmp_key : forall a b, cmp a b = key a - key b.

Lemma sort_insert_Permutation (x : A) (l : list A) : sort_insert cmp x l ≡ₚ x :: l.
Proof.
  induction l as [|y l IH]; simpl; [reflexivity|].
  destruct (cmp x y <=? 0)%Z; [reflexivity|].
  rewrite IH. apply Permutation_swap.
Qed.

Lemma sort_Permutation (l : list A) : sort cmp l ≡ₚ l.
Proof.
  induction l as [|x l IH]; simpl; [reflexivity|].
  now rewrite sort_insert_Permutation, IH.
Qed.

(** Inserting does not disturb the elements of one priority class. *)
Lemma sort_insert_filter (P : A -> Prop) `{!forall a, Decision (P a)} (x : A) (l : list A) :
  (forall a b, P a -> P b -> key a = key b) ->
  filter P (sort_insert cmp x l) = filter P (x :: l).
Proof.
  intros Hclass. induction l as [|y l IH]; simpl; [reflexivity|].
  destruct (Z.leb_spec (cmp x y) 0) as [|Hgt]; [reflexivity|].
  rewrite cmp_key in Hgt.
  rewrite (filter_cons P y), IH, !(filter_cons P x), (filter_cons P y).
  destruct (decide (P y)) as [Hy|]; [|reflexivity].
  destruct (decide (P x)) as [Hx|]; [|reflexivity].
  specialize (Hclass x y Hx Hy). lia.
Qed.

Lemma sort_filter (P : A -> Prop) `{!forall a, Decision (P a)} (l : list A) :
  (forall a b, P a -> P b -> key a = key b) ->
  filter P (sort cmp l) = filter P l.
Proof.
  intros Hclass. induction l as [|x l IH]; simpl; [reflexivity|].
  rewrite sort_insert_filter by assumption.
  now rewrite !(filter_cons P x), IH.
Qed.

Lemma sort_insert_sorted (x : A) (l : list A) :
  StronglySorted (key_le key) l -> StronglySorted (key_le key) (sort_insert cmp x l).
Proof.
  induction 1 as [|y l Hl IH Hy]; simpl.
  - repeat constructor.
  - destruct (Z.leb_spec (cmp x y) 0) as [Hle|Hgt]; rewrite cmp_key in *.
    + constructor; [now constructor|].
      constructor; [unfold key_le; lia|].
      eapply Forall_impl; [exact Hy|]. unfold key_le. intros z Hz. lia.
    + constructor; [exact IH|].
      rewrite sort_insert_Permutation. constructor; [unfold key_le; lia | exact Hy].
Qed.

Lemma sort_sorted (l : list A) : StronglySorted (key_le key) (sort cmp l).
Proof.
  induction l as [|x l IH]; simpl; [constructor | now apply sort_insert_sorted].
Qed.

(** In a sorted list an element of smaller priority number comes first. *)
Lemma sorted_lookup_lt (l : list A) (i j : nat) (a b : A) :
  StronglySorted (key_le key) l ->
  l !! i = Some a -> l !! j = Some b -> key a < key b -> (i < j)%nat.
Proof.
  intros Hl. revert i j. induction Hl as [|y l Hl IH Hy]; intros i j Hi Hj Hlt.
  - discriminate.
  - destruct i as [|i], j as [|j]; simpl in *.
    + simplify_eq. lia.
    + lia.
    + simplify_eq.
      rewrite Forall_forall in Hy. specialize (Hy a).
      unfold key_le in Hy. 
      assert (a ∈ l) by (eapply list_elem_of_lookup_2; eassumption).
      specialize (Hy ltac:(assumption)). lia.
    + specialize (IH i j Hi Hj Hlt). lia.
Qed.

(** A list that is already in order is left as it is. *)
Lemma sort_sorted_id (l : list A) : StronglySorted (key_le key) l -> sort cmp l = l.
Proof.
  induction 1 as [|x l Hl IH Hx]; simpl; [reflexivity|].
  rewrite IH. destruct l as [|y l]; [reflexivity|]. simpl.
  apply Forall_cons in Hx as [Hxy _]. unfold key_le in Hxy.
  destruct (Z.leb_spec (cmp x y) 0) as [|Hgt]; [reflexivity|].
  rewrite cmp_key in Hgt. lia.
Qed.

End sort_facts.

(** ** Decimal rendering of the record counter *)

Lemma Z_toString_parse (n : Z) :
  Z.of_int <$> NilZero.int_of_string (Z_toString n) = Some n.
Proof.
  unfold Z_toString. rewrite NilZero.isi.
  - simpl. now rewrite DecimalZ.of_to.
  - destruct n; simpl; try discriminate.
    intros [= Hp]. now apply Unsigned.to_uint_nonnil in Hp.
  - destruct n; simpl; try discriminate.
    intros [= Hp]. now apply Unsigned.to_uint_nonnil in Hp.
Qed.

#[local] Instance Z_toString_inj : Inj (=) (=) Z_toString.
Proof.
  intros a b Hab. pose proof (Z_toString_parse a) as Ha.
  rewrite Hab, Z_toString_parse in Ha. congruence.
Qed.

(** ** The first revision of the gap aggregator *)

Section first_revision.
Import ResultsDashboardV1.

Lemma statusPriority_inj (s1 s2 : Status) :
  statusPriority s1 = statusPriority s2 -> s1 = s2.
Proof. destruct s1, s2; simpl; intros; congruence || lia. Qed.

(** C2.  The status sort of the aggregator returns a rearrangement of the
    collected records in which every [missing] record comes before every
    [partial] record, and both come before every [complete] record, while
    records of equal status keep their relative order; the list the
    aggregator returns is the beginning of that sorted list. *)
Theorem status_sort_ordered_and_stable (gaps : list Gap) :
  let sorted := sort byStatusPriority gaps in
  sorted ≡ₚ gaps
  /\ (forall i j a b,
        sorted !! i = Some a -> sorted !! j = Some b ->
        (status a = missing /\ status b = partial)
        \/ (status a = missing /\ status b = complete)
        \/ (status a = partial /\ status b = complete) ->
        (i < j)%nat)
  /\ (forall s, filter (fun g => status g = s) sorted
                = filter (fun g => status g = s) gaps)
  /\ (forall (F : NumberFormat) dr out,
        extractGapAnalysis dr = Ok out ->
        exists collected next,
          collectGaps dr = Ok (collected, next)
          /\ out = take 10 (sort byStatusPriority collected)).
Proof.
  set (key := fun g => statusPriority (status g)).
  assert (Hcmp : forall a b, byStatusPriority a b = key a - key b) by reflexivity.
  cbv zeta. split; [|split; [|split]].
  - apply sort_Permutation.
  - intros i j a b Hi Hj Hab.
    apply (sorted_lookup_lt key (sort byStatusPriority gaps) i j a b);
      [apply (sort_sorted _ _ Hcmp) | assumption | assumption |].
    unfold key.
    destruct Hab as [[-> ->]|[[-> ->]|[-> ->]]]; simpl; lia.
  - intros s. apply (sort_filter _ key Hcmp).
    intros a b Ha Hb. unfold key. now rewrite Ha, Hb.
  - intros F dr out Hout. unfold extractGapAnalysis in Hout.
    destruct (collectGaps dr) as [[collected next]|] eqn:Hc; [|discriminate].
    exists collected, next. split; [reflexivity|].
    simpl in Hout. now injection Hout as <-.
Qed.

End first_revision.

(** ** Sublists and increasing sequences *)

Lemma sublist_of_fmap {B C} (f : B -> C) (xs : list B) (k : list C) :
  k `sublist_of` f <$> xs -> exists xs', xs' `sublist_of` xs /\ k = f <$> xs'.
Proof.
  revert k. induction xs as [|x xs IH]; intros k Hk.
  - apply sublist_nil_r in Hk as ->. exists []. split; [constructor | reflexivity].
  - rewrite fmap_cons in Hk. apply sublist_cons_r in Hk as [Hk|(k' & -> & Hk)].
    + destruct (IH k Hk) as (xs' & Hsub & ->).
      exists xs'. split; [now apply sublist_cons_r; left | reflexivity].
    + destruct (IH k' Hk) as (xs' & Hsub & ->).
      exists (x :: xs'). split; [now constructor | reflexivity].
Qed.

Lemma StronglySorted_sublist {B} (R : relation B) (l' l : list B) :
  l' `sublist_of` l -> StronglySorted R l -> StronglySorted R l'.
Proof.
  induction 1 as [|x l1 l2 Hsub IH|x l1 l2 Hsub IH]; intros Hl.
  - constructor.
  - apply StronglySorted_inv in Hl as [Hl Hx].
    constructor; [now apply IH|].
    rewrite Forall_forall in Hx |- *. intros y Hy. apply Hx.
    eapply elem_of_sublist; eassumption.
  - apply StronglySorted_inv in Hl as [Hl _]. now apply IH.
Qed.

Lemma StronglySorted_seqZ (m n : Z) : StronglySorted Z.lt (seqZ m n).
Proof.
  destruct (Z.le_gt_cases n 0) as [Hn|Hn]; [rewrite seqZ_nil by lia; constructor|].
  rewrite <- (Z2Nat.id n) by lia. generalize (Z.to_nat n) as k. clear.
  intros k. revert m. induction k as [|k IH]; intros m.
  - rewrite seqZ_nil by lia. constructor.
  - rewrite seqZ_cons by lia. rewrite Nat2Z.inj_succ, Z.pred_succ.
    constructor; [apply IH|].
    apply Forall_seqZ. intros; lia.
Qed.

(** ** Completions *)

Lemma bind_Ok {A B} (a : A) (f : A -> result B) : Ok a ≫= f = f a.
Proof. reflexivity. Qed.

Lemma bind_TypeError {A B} (f : A -> result B) : TypeError ≫= f = TypeError.
Proof. reflexivity. Qed.

Lemma forEach_cons {A S} (f : S -> A -> result S) (a : A) (l : list A) (s : S) :
  forEach f (a :: l) s = f s a ≫= forEach f l.
Proof. reflexivity. Qed.

(** ** Collecting the gap records (first revision) *)

Section first_revision_aggregation.
Import ResultsDashboardV1.
Context `{NumberFormat}.

Lemma appended_nil (acc : list Gap * Z) : appended acc acc [].
Proof.
  split; [|reflexivity]. destruct acc as [gaps n]; simpl.
  now rewrite app_nil_r, Z.add_0_r.
Qed.

Lemma appended_app (acc1 acc2 acc3 : list Gap * Z) (new1 new2 : list Gap) :
  appended acc1 acc2 new1 -> appended acc2 acc3 new2 ->
  appended acc1 acc3 (new1 ++ new2).
Proof.
  intros [-> Hid1] [-> Hid2]. simpl in *. split.
  - rewrite length_app, Nat2Z.inj_add, app_assoc, Z.add_assoc. reflexivity.
  - rewrite fmap_app, Hid1, Hid2, length_app, Nat2Z.inj_add.
    rewrite seqZ_app by lia. now rewrite fmap_app.
Qed.

Lemma pushGap_ok (c : string) (cd : CategoryData) (st : Status)
    (acc acc' : list Gap * Z) (reg : RegulationMatch) :
  pushGap c cd st acc reg = Ok acc' ->
  exists md, acc' = (acc.1 ++ [mkGap acc.2 c md st reg], acc.2 + 1).
Proof.
  unfold pushGap. destruct (metadata cd) as [md|]; [|discriminate].
  intros [= <-]. now exists md.
Qed.

Lemma pushGap_error (c : string) (cd : CategoryData) (st : Status)
    (acc : list Gap * Z) (reg : RegulationMatch) :
  pushGap c cd st acc reg = TypeError -> metadata cd = None.
Proof. unfold pushGap. now destruct (metadata cd). Qed.

Lemma forEach_pushGap (c : string) (cd : CategoryData) (st : Status)
    (l : list RegulationMatch) (acc acc' : list Gap * Z) :
  forEach (pushGap c cd st) l acc = Ok acc' ->
  exists new, appended acc acc' new
              /\ length new = length l
              /\ Forall (fun g => category g = c /\ status g = st) new.
Proof.
  revert acc. induction l as [|reg l IH]; intros acc Hrun.
  - injection Hrun as <-. exists []. split; [apply appended_nil|]. now split.
  - rewrite forEach_cons in Hrun.
    destruct (pushGap c cd st acc reg) as [acc1|] eqn:Hpush; [|discriminate].
    rewrite bind_Ok in Hrun.
    destruct (pushGap_ok _ _ _ _ _ _ Hpush) as (md & ->).
    destruct (IH _ Hrun) as (new & Happ & Hlen & Hall).
    exists (mkGap acc.2 c md st reg :: new). split; [|split].
    + apply (appended_app acc (acc.1 ++ [mkGap acc.2 c md st reg], acc.2 + 1) acc'
               [mkGap acc.2 c md st reg] new); [|exact Happ].
      split; [reflexivity|]. cbn [length fst snd].
      rewrite seqZ_cons by lia. rewrite seqZ_nil by lia. reflexivity.
    + simpl. now rewrite Hlen.
    + constructor; [now split | exact Hall].
Qed.

Lemma forEach_pushGap_error (c : string) (cd : CategoryData) (st : Status)
    (l : list RegulationMatch) (acc : list Gap * Z) :
  forEach (pushGap c cd st) l acc = TypeError -> metadata cd = None.
Proof.
  revert acc. induction l as [|reg l IH]; intros acc Hrun.
  - discriminate.
  - rewrite forEach_cons in Hrun.
    destruct (pushGap c cd st acc reg) as [acc1|] eqn:Hpush;
      [|now apply pushGap_error in Hpush].
    rewrite bind_Ok in Hrun. eapply IH. exact Hrun.
Qed.

Lemma pushRegs_ok (c : string) (cd : CategoryData) (st : Status) (n : nat)
    (regs : option (list RegulationMatch)) (acc acc' : list Gap * Z) :
  pushRegs c cd st n regs acc = Ok acc' ->
  exists new, appended acc acc' new
              /\ (length new <= n)%nat
              /\ Forall (fun g => category g = c /\ status g = st) new.
Proof.
  unfold pushRegs. destruct regs as [l|]; intros Hrun.
  - destruct (forEach_pushGap _ _ _ _ _ _ Hrun) as (new & Happ & Hlen & Hall).
    exists new. repeat split; try assumption; try apply Happ.
    rewrite Hlen. unfold slice0. rewrite length_take. lia.
  - injection Hrun as <-. exists []. split; [apply appended_nil|].
    split; [simpl; lia | constructor].
Qed.

Lemma pushRegs_error (c : string) (cd : CategoryData) (st : Status) (n : nat)
    (regs : option (list RegulationMatch)) (acc : list Gap * Z) :
  pushRegs c cd st n regs acc = TypeError -> metadata cd = None.
Proof.
  unfold pushRegs. destruct regs as [l|]; [apply forEach_pushGap_error | discriminate].
Qed.

Lemma countOf_app (c : string) (s : Status) (l1 l2 : list Gap) :
  countOf c s (l1 ++ l2) = (countOf c s l1 + countOf c s l2)%nat.
Proof. unfold countOf. now rewrite filter_app, length_app. Qed.

Lemma countOf_le_length (c : string) (s : Status) (l : list Gap) :
  (countOf c s l <= length l)%nat.
Proof. apply length_filter. Qed.

Lemma countOf_other (c : string) (s : Status) (l : list Gap) :
  Forall (fun g => ~ (category g = c /\ status g = s)) l -> countOf c s l = O.
Proof.
  unfold countOf. induction 1 as [|g l Hg Hl IH]; [reflexivity|].
  now rewrite filter_cons_False.
Qed.

(** What one category contributes respects the caps. *)
Lemma processCategory_ok (dr : gmap string CategoryData) (c : string)
    (acc acc' : list Gap * Z) :
  processCategory dr acc c = Ok acc' ->
  exists new, appended acc acc' new
              /\ Forall (fun g => category g = c) new
              /\ forall c' s, (countOf c' s new <= cap s)%nat.
Proof.
  unfold processCategory. intros Hrun.
  destruct (dr !! c) as [cd|];
    [|injection Hrun as <-; exists []; split; [apply appended_nil|];
      split; [constructor | intros; unfold countOf; simpl; lia]].
  destruct (gap_analysis cd) as [gapData|];
    [|injection Hrun as <-; exists []; split; [apply appended_nil|];
      split; [constructor | intros; unfold countOf; simpl; lia]].
  destruct (pushRegs c cd missing 3 _ acc) as [acc1|] eqn:H1; [|discriminate].
  rewrite bind_Ok in Hrun.
  destruct (pushRegs c cd partial 2 _ acc1) as [acc2|] eqn:H2; [|discriminate].
  rewrite bind_Ok in Hrun.
  destruct (pushRegs_ok _ _ _ _ _ _ _ H1) as (m & Hm & Hmlen & Hmall).
  destruct (pushRegs_ok _ _ _ _ _ _ _ H2) as (p & Hp & Hplen & Hpall).
  destruct (pushRegs_ok _ _ _ _ _ _ _ Hrun) as (k & Hk & Hklen & Hkall).
  exists (m ++ p ++ k). split; [|split].
  - eapply appended_app; [exact Hm|]. eapply appended_app; eassumption.
  - rewrite !Forall_app. repeat split;
      (eapply Forall_impl; [eassumption|]; intros g [Hg _]; exact Hg).
  - intros c' s. rewrite !countOf_app.
    assert (Hother : forall st l,
               Forall (fun g => category g = c /\ status g = st) l ->
               st <> s -> countOf c' s l = O).
    { intros st l Hl Hne. apply countOf_other.
      eapply Forall_impl; [exact Hl|]. intros g [_ Hst] [_ Hs]. congruence. }
    pose proof (countOf_le_length c' s m). pose proof (countOf_le_length c' s p).
    pose proof (countOf_le_length c' s k).
    destruct s; simpl.
    + rewrite (Hother partial p), (Hother complete k) by (assumption || discriminate). lia.
    + rewrite (Hother missing m), (Hother complete k) by (assumption || discriminate). lia.
    + rewrite (Hother missing m), (Hother partial p) by (assumption || discriminate). lia.
Qed.

Lemma processCategory_error (dr : gmap string CategoryData) (c : string)
    (acc : list Gap * Z) :
  processCategory dr acc c = TypeError ->
  exists cd, dr !! c = Some cd /\ metadata cd = None.
Proof.
  unfold processCategory. intros Hrun.
  destruct (dr !! c) as [cd|]; [|discriminate]. exists cd. split; [reflexivity|].
  destruct (gap_analysis cd) as [gapData|]; [|discriminate].
  destruct (pushRegs c cd missing 3 _ acc) as [acc1|] eqn:H1;
    [|now apply pushRegs_error in H1].
  rewrite bind_Ok in Hrun.
  destruct (pushRegs c cd partial 2 _ acc1) as [acc2|] eqn:H2;
    [|now apply pushRegs_error in H2].
  rewrite bind_Ok in Hrun. now apply pushRegs_error in Hrun.
Qed.

(** The loop over distinct category names. *)
Lemma forEach_processCategory_ok (dr : gmap string CategoryData) (cs : list string)
    (acc acc' : list Gap * Z) :
  NoDup cs ->
  forEach (processCategory dr) cs acc = Ok acc' ->
  exists new, appended acc acc' new
              /\ Forall (fun g => category g ∈ cs) new
              /\ forall c s, (countOf c s new <= cap s)%nat.
Proof.
  intros Hnd. revert acc. induction Hnd as [|c cs Hc Hnd IH]; intros acc Hrun.
  - injection Hrun as <-. exists []. split; [apply appended_nil|].
    split; [constructor | intros; unfold countOf; simpl; lia].
  - rewrite forEach_cons in Hrun.
    destruct (processCategory dr acc c) as [acc1|] eqn:H1; [|discriminate].
    rewrite bind_Ok in Hrun.
    destruct (processCategory_ok _ _ _ _ H1) as (new1 & Happ1 & Hcat1 & Hcap1).
    destruct (IH _ Hrun) as (new2 & Happ2 & Hcat2 & Hcap2).
    exists (new1 ++ new2). split; [|split].
    + eapply appended_app; eassumption.
    + rewrite Forall_app. split.
      * eapply Forall_impl; [exact Hcat1|]. intros g ->. now left.
      * eapply Forall_impl; [exact Hcat2|]. intros g Hg. now right.
    + intros c' s. rewrite countOf_app.
      destruct (decide (c' = c)) as [->|Hne].
      * rewrite (countOf_other c s new2); [specialize (Hcap1 c s); lia|].
        eapply Forall_impl; [exact Hcat2|]. intros g Hg [Heq _]. congruence.
      * rewrite (countOf_other c' s new1); [specialize (Hcap2 c' s); lia|].
        eapply Forall_impl; [exact Hcat1|]. intros g Hg [Heq _]. congruence.
Qed.

Lemma forEach_processCategory_error (dr : gmap string CategoryData)
    (cs : list string) (acc : list Gap * Z) :
  forEach (processCategory dr) cs acc = TypeError ->
  exists c cd, c ∈ cs /\ dr !! c = Some cd /\ metadata cd = None.
Proof.
  revert acc. induction cs as [|c cs IH]; intros acc Hrun.
  - discriminate.
  - rewrite forEach_cons in Hrun.
    destruct (processCategory dr acc c) as [acc1|] eqn:H1.
    + rewrite bind_Ok in Hrun. destruct (IH _ Hrun) as (c' & cd & Hin & Hcd). exists c', cd.
      split; [now right | exact Hcd].
    + destruct (processCategory_error _ _ _ H1) as (cd & Hcd). exists c, cd.
      split; [now left | exact Hcd].
Qed.

Lemma categories_NoDup : NoDup categories.
Proof.
  unfold categories.
  repeat constructor; rewrite ?elem_of_cons, ?elem_of_nil; intuition discriminate.
Qed.

Lemma filter_sublist_mono (P : Gap -> Prop) `{!forall g, Decision (P g)}
    (l' l : list Gap) :
  l' `sublist_of` l -> filter P l' `sublist_of` filter P l.
Proof.
  induction 1 as [|x l1 l2 Hsub IH|x l1 l2 Hsub IH].
  - constructor.
  - rewrite !filter_cons. destruct (decide (P x)); [now constructor | exact IH].
  - rewrite filter_cons. destruct (decide (P x)); [now apply sublist_cons_r; left | exact IH].
Qed.

Lemma countOf_sublist (c : string) (s : Status) (l' l : list Gap) :
  l' `sublist_of` l -> (countOf c s l' <= countOf c s l)%nat.
Proof. intros Hsub. apply sublist_length, filter_sublist_mono, Hsub. Qed.

Lemma countOf_Permutation (c : string) (s : Status) (l' l : list Gap) :
  l' ≡ₚ l -> countOf c s l' = countOf c s l.
Proof. intros Hp. unfold countOf. now rewrite Hp. Qed.

Lemma category_total (c : string) (l : list Gap) :
  length (filter (fun g => category g = c) l)
  = (countOf c missing l + countOf c partial l + countOf c complete l)%nat.
Proof.
  unfold countOf. induction l as [|g l IH]; [reflexivity|].
  rewrite !filter_cons.
  destruct (status g) eqn:Hs; repeat case_decide;
    try (exfalso; intuition congruence);
    rewrite ?length_cons, IH; lia.
Qed.

(** C1 (amended).  When the aggregation completes, every category has at
    most 3 [missing], 2 [partial] and 1 [complete] record, 6 in all, among
    the collected records and among the returned ones (status-sorted, first
    ten).  The ids come from one counter that is never reset: the collected
    records are numbered 1, 2, 3, ... in aggregation order.  In the returned
    list the ids are pairwise distinct and increase strictly among records
    of equal status.  The aggregation throws only for a category that has no
    metadata. *)
Theorem gap_aggregation_caps_and_ids (dr : gmap string CategoryData) :
  match extractGapAnalysis dr with
  | Ok out =>
      exists gaps,
        collectGaps dr = Ok (gaps, 1 + Z.of_nat (length gaps))
        /\ out = take 10 (sort byStatusPriority gaps)
        /\ id <$> gaps = Z_toString <$> seqZ 1 (Z.of_nat (length gaps))
        /\ (forall c s, (countOf c s gaps <= cap s)%nat
                        /\ (countOf c s out <= cap s)%nat)
        /\ (forall c, (length (filter (fun g => category g = c) out) <= 6)%nat)
        /\ NoDup (id <$> out)
        /\ (forall s, ids_increasing (filter (fun g => status g = s) out))
  | TypeError =>
      exists c cd, c ∈ categories /\ dr !! c = Some cd /\ metadata cd = None
  end.
Proof.
  unfold extractGapAnalysis, collectGaps.
  destruct (forEach (processCategory dr) categories ([], 1)) as [[gaps next]|] eqn:Hrun.
  - rewrite bind_Ok. change (mret ?x) with (Ok x). cbn [fst].
    destruct (forEach_processCategory_ok _ _ _ _ categories_NoDup Hrun)
      as (new & [Hacc Hids] & _ & Hcap).
    simpl in Hacc, Hids. injection Hacc as -> ->.
    set (sorted := sort byStatusPriority new).
    assert (Hperm : sorted ≡ₚ new) by apply sort_Permutation.
    assert (Hsub : slice0 10 sorted `sublist_of` sorted) by apply sublist_take.
    assert (Hcapout : forall c s, (countOf c s (slice0 10 sorted) <= cap s)%nat).
    { intros c s. pose proof (countOf_sublist c s _ _ Hsub) as Hle.
      rewrite (countOf_Permutation c s _ _ Hperm) in Hle.
      specialize (Hcap c s). lia. }
    exists new. split; [reflexivity|]. split; [reflexivity|].
    split; [exact Hids|]. split; [|split; [|split]].
    + intros c s. split; [apply Hcap | apply Hcapout].
    + intros c. rewrite category_total.
      pose proof (Hcapout c missing). pose proof (Hcapout c partial).
      pose proof (Hcapout c complete). simpl in *. lia.
    + apply (sublist_NoDup (id <$> slice0 10 sorted) (id <$> sorted));
        [|apply fmap_sublist, Hsub].
      rewrite Hperm, Hids. apply NoDup_fmap_2; [apply _ | apply NoDup_seqZ].
    + intros s.
      assert (Hin : filter (fun g => status g = s) (slice0 10 sorted) `sublist_of` new).
      { etrans; [apply filter_sublist_mono, Hsub|].
        unfold sorted.
        rewrite (sort_filter byStatusPriority (fun g => statusPriority (status g)))
          by (reflexivity || (intros a b Ha Hb; now rewrite Ha, Hb)).
        apply sublist_filter. }
      apply (fmap_sublist id) in Hin. rewrite Hids in Hin.
      destruct (sublist_of_fmap _ _ _ Hin) as (ns & Hns & Heq).
      exists ns. split; [exact Heq|].
      eapply StronglySorted_sublist; [exact Hns | apply StronglySorted_seqZ].
  - rewrite bind_TypeError.
    apply (forEach_processCategory_error _ _ _ Hrun).
Qed.

(** The view of the first revision: the first ten records of the
    status-sorted list. *)
Lemma first_revision_view (ad : AnalysisData) (esg : list Bucket) (out : list Gap) :
  let dr := default ∅ (detailed_results ad) in
  formattedEsgData dr = Ok esg ->
  extractGapAnalysis dr = Ok out ->
  gapAnalysis (loadAnalysisResults (Some ad) None initial) = out
  /\ (length out <= 10)%nat.
Proof.
  cbv zeta. intros Hesg Hout. unfold loadAnalysisResults, analysisSource.
  rewrite Hesg, Hout. split; [reflexivity|].
  unfold extractGapAnalysis in Hout.
  destruct (collectGaps _) as [acc|]; [|discriminate].
  assert (Hlen : (length (slice0 10 (sort byStatusPriority acc.1)) <= 10)%nat)
    by (unfold slice0; rewrite length_take; lia).
  rewrite bind_Ok in Hout. injection Hout as <-. exact Hlen.
Qed.

End first_revision_aggregation.

(** ** The claim on record ids, as stated *)

(** C1 (as claimed, refuted).  In the first revision the status sort moves the
    [missing] record of the second category, numbered 2, in front of the
    [complete] record of the first, numbered 1: the ids do not increase along
    the output.  In the second revision four uncovered regulations of one
    category give four rows, and no row has an id. *)
Lemma gap_ids_not_increasing_across_output :
  ~ (forall out,
       ResultsDashboardV1.extractGapAnalysis (H := plainFormat) sampleResults = Ok out ->
       (forall c s, (countOf c s out <= cap s)%nat) /\ ids_increasing out)
  /\ length (filter (fun r => ResultsDashboardV2.status r = "MISSING")
               (ResultsDashboardV2.extractGapAnalysis (H := plainFormat) fourUncovered))
     = 4%nat.
Proof.
  split; [|vm_compute; reflexivity].
  intros Hclaim.
  assert (Hout : exists g2 g1,
             ResultsDashboardV1.extractGapAnalysis (H := plainFormat) sampleResults
             = Ok [g2; g1]
             /\ ResultsDashboardV1.id g2 = Z_toString 2
             /\ ResultsDashboardV1.id g1 = Z_toString 1).
  { eexists _, _. split; [vm_compute; reflexivity|]. split; reflexivity. }
  destruct Hout as (g2 & g1 & Hout & Hid2 & Hid1).
  destruct (Hclaim _ Hout) as [_ (ns & Hns & Hsorted)].
  destruct ns as [|a [|b [|? ?]]]; try discriminate Hns.
  injection Hns as Ha Hb. rewrite Hid2 in Ha. rewrite Hid1 in Hb.
  apply (inj Z_toString) in Ha, Hb. subst a b.
  apply StronglySorted_inv in Hsorted as [_ Hlt].
  apply Forall_cons in Hlt as [Hlt _]. lia.
Qed.

(** ** The second revision: display subset and workbook *)

Section second_revision.
Import ResultsDashboardV2.

(** C3 (as claimed, refuted).  With one covered environmental and one
    uncovered social regulation the view shows the covered row first; the
    first seven of the status-sorted list start with the missing row. *)
Lemma display_is_not_status_sorted :
  let st := loadAnalysisResults (H := plainFormat) (Some sampleAnalysis) None initial in
  status <$> gapAnalysis st = ["COVERED"; "MISSING"]
  /\ status <$> specDisplay (completeGapAnalysis st) = ["MISSING"; "COVERED"]
  /\ gapAnalysis st <> specDisplay (completeGapAnalysis st).
Proof.
  cbv zeta.
  assert (H1 : status <$> gapAnalysis
                 (loadAnalysisResults (H := plainFormat) (Some sampleAnalysis) None initial)
               = ["COVERED"; "MISSING"]) by (vm_compute; reflexivity).
  assert (H2 : status <$> specDisplay (completeGapAnalysis
                 (loadAnalysisResults (H := plainFormat) (Some sampleAnalysis) None initial))
               = ["MISSING"; "COVERED"]) by (vm_compute; reflexivity).
  split; [exact H1|]. split; [exact H2|].
  intros Heq. rewrite Heq, H2 in H1. discriminate H1.
Qed.

Context `{NumberFormat}.

Lemma extractGapAnalysis_unfold (dr : gmap string CategoryData) :
  extractGapAnalysis dr
  = categoryRows dr "environmental" ++ categoryRows dr "social"
    ++ categoryRows dr "governance".
Proof.
  unfold extractGapAnalysis, categories. simpl. now rewrite <- app_assoc.
Qed.

(** C3 (amended).  After [loadAnalysisResults] the view holds the first
    seven records of the complete list as the aggregator returned it: the
    rows of the environmental, social and governance categories in that
    order, each category giving its missing, partial and covered rows.  No
    status sort is applied; the view is the first seven of the stably
    status-sorted list when the complete list is already in status order. *)
Theorem display_is_prefix_of_complete_list (navigated stored : option AnalysisData) :
  let st := loadAnalysisResults navigated stored initial in
  gapAnalysis st = take 7 (completeGapAnalysis st)
  /\ (forall ad esg,
        analysisSource navigated stored = Some ad ->
        formattedEsgData (default ∅ (detailed_results ad)) = Ok esg ->
        let dr := default ∅ (detailed_results ad) in
        completeGapAnalysis st
        = categoryRows dr "environmental" ++ categoryRows dr "social"
          ++ categoryRows dr "governance")
  /\ (StronglySorted (key_le rowPriority) (completeGapAnalysis st) ->
      gapAnalysis st = specDisplay (completeGapAnalysis st)).
Proof.
  cbv zeta.
  assert (Hprefix : gapAnalysis (loadAnalysisResults navigated stored initial)
                    = take 7 (completeGapAnalysis
                                (loadAnalysisResults navigated stored initial))).
  { unfold loadAnalysisResults.
    destruct (analysisSource navigated stored) as [ad|]; [|reflexivity].
    destruct (formattedEsgData _); reflexivity. }
  split; [exact Hprefix|]. split.
  - intros ad esg Had Hesg. unfold loadAnalysisResults. rewrite Had, Hesg.
    cbn [completeGapAnalysis]. apply extractGapAnalysis_unfold.
  - intros Hsorted. rewrite Hprefix. unfold specDisplay.
    now rewrite (sort_sorted_id byRowPriority rowPriority) by (reflexivity || assumption).
Qed.

(** C8.  With no gap record the export shows the refusal and writes no
    file; with at least one it writes a workbook of the two sheets, the
    first with one row per record. *)
Theorem downloadExcel_refuses_empty_list (st : State) (fullYear : Z) :
  (completeGapAnalysis st = []
   <-> downloadExcel st fullYear = Alert "No gap analysis data available to download")
  /\ (completeGapAnalysis st <> []
      <-> exists ws wsSummary name,
            downloadExcel st fullYear
            = WriteFile [("Gap Analysis", ws); ("Summary", wsSummary)] name
            /\ length (rows ws) = length (completeGapAnalysis st)).
Proof.
  unfold downloadExcel. destruct (completeGapAnalysis st) as [|row l] eqn:Hall.
  - split; [tauto|]. split; [congruence|]. intros (? & ? & ? & Heq & _). discriminate.
  - split; [split; intros; discriminate|]. split; [|discriminate].
    intros _. do 3 eexists. split; [reflexivity|].
    cbn [rows]. now rewrite length_imap.
Qed.

Lemma categoryRows_labels (dr : gmap string CategoryData) (c : string) :
  Forall (fun r => status r = "MISSING" \/ status r = "PARTIAL" \/ status r = "COVERED")
    (categoryRows dr c).
Proof.
  unfold categoryRows. destruct (dr !! c) as [cd|]; [|constructor].
  destruct (gap_analysis cd) as [gap|]; [|constructor].
  rewrite !Forall_app, !Forall_fmap. repeat split; apply Forall_true; intros r; simpl; tauto.
Qed.

Lemma countStatus_none (s : string) (l : list Row) :
  Forall (fun r => status r <> s) l -> countStatus s l = 0.
Proof.
  unfold countStatus. induction 1 as [|r l Hr Hl IH]; [reflexivity|]. simpl.
  apply String.eqb_neq in Hr. now rewrite Hr.
Qed.

(** C9 (as the code behaves).  The aggregator labels its rows [MISSING],
    [PARTIAL] and [COVERED]; the summary counts the rows labelled [missing],
    [partial] and [complete], so each of its three counts is 0 whatever the
    rows are, while the total is the number of rows.  For one covered and
    one uncovered regulation the sheet shows the statuses COVERED and
    MISSING and the summary reports a total of 2 with no missing and no
    complete coverage. *)
Theorem summary_counts_miss_the_labels (dr : gmap string CategoryData) :
  countStatus "missing" (extractGapAnalysis dr) = 0
  /\ countStatus "partial" (extractGapAnalysis dr) = 0
  /\ countStatus "complete" (extractGapAnalysis dr) = 0
  /\ let st := loadAnalysisResults (H := plainFormat) (Some sampleAnalysis) None initial in
     let written := downloadExcel st 2025 in
     field "Status" <$> writtenRows "Gap Analysis" written
     = [Some (Str "COVERED"); Some (Str "MISSING")]
     /\ (fun row => (field "Metric" row, field "Value" row))
          <$> drop 3 (writtenRows "Summary" written)
        = [(Some (Str "Total Regulations Analyzed"), Some (Num 2));
           (Some (Str "Missing Coverage"), Some (Num 0));
           (Some (Str "Partial Coverage"), Some (Num 0));
           (Some (Str "Complete Coverage"), Some (Num 0))].
Proof.
  assert (Hlabels : Forall (fun r => status r = "MISSING" \/ status r = "PARTIAL"
                                     \/ status r = "COVERED") (extractGapAnalysis dr)).
  { rewrite extractGapAnalysis_unfold, !Forall_app.
    repeat split; apply categoryRows_labels. }
  assert (Hnone : forall s, s <> "MISSING" -> s <> "PARTIAL" -> s <> "COVERED" ->
                             countStatus s (extractGapAnalysis dr) = 0).
  { intros s H1 H2 H3. apply countStatus_none.
    eapply Forall_impl; [exact Hlabels|]. intros r Hr Heq.
    destruct Hr as [Hr | [Hr | Hr]]; congruence. }
  split; [|split; [|split; [|split]]].
  - now apply Hnone.
  - now apply Hnone.
  - now apply Hnone.
  - vm_compute. reflexivity.
  - vm_compute. reflexivity.
Qed.

End second_revision.

(* ===================================================================== *)
(** * Part III: further properties of the code *)
(* ===================================================================== *)

(** ** Excerpts *)

Lemma str_take_length_le (k : nat) (s : string) :
  (String.length (str_take k s) <= k)%nat.
Proof.
  revert s; induction k as [|k IH]; intros [|a s]; simpl; try lia.
  specialize (IH s). lia.
Qed.

Lemma substring_length_le (s : string) (n : Z) :
  str_length (substring s 0 n) <= Z.max 0 n.
Proof.
  unfold substring, str_length.
  rewrite (Z.max_l 0 0) by lia. rewrite (Z.min_l 0) by lia.
  change (Z.to_nat 0) with O. rewrite Nat.min_0_l, Nat.max_0_l, Nat.sub_0_r.
  rewrite substring_from_start.
  pose proof (str_take_length_le
                (Z.to_nat (Z.min (Z.max 0 n) (Z.of_nat (String.length s)))) s).
  lia.
Qed.

Lemma append_nonempty (s t : string) : t <> "" -> s +:+ t <> "".
Proof.
  intros Ht Hst. apply (f_equal String.length) in Hst.
  rewrite append_length in Hst. destruct t; [congruence | simpl in Hst; lia].
Qed.

Lemma truncateText_nonempty (text : option string) (n : Z) :
  truncateText text n <> "".
Proof.
  unfold truncateText. destruct text as [[|a s]|]; try discriminate.
  destruct (str_length (String a s) <=? n)%Z; [discriminate|].
  apply append_nonempty. discriminate.
Qed.

Lemma truncateText_length_le (text : option string) (n : Z) :
  str_length (truncateText text n) <= Z.max (n + 3) 17.
Proof.
  unfold truncateText. destruct text as [[|a s]|];
    try (change (str_length "No text available") with 17; lia).
  destruct (Z.leb_spec (str_length (String a s)) n) as [Hle|Hgt]; [lia|].
  pose proof (substring_length_le (String a s) n) as Hsub.
  unfold str_length in *. rewrite append_length. simpl String.length in *. lia.
Qed.

(** X1.  Whatever the text and the budget, the excerpt is never the empty
    string, and it has at most [max (n + 3) 17] characters (17 being the
    length of the sentinel). *)
Theorem truncateText_nonempty_bounded (text : option string) (n : Z) :
  truncateText text n <> ""
  /\ str_length (truncateText text n) <= Z.max (n + 3) 17.
Proof. split; [apply truncateText_nonempty | apply truncateText_length_le]. Qed.

(** ** The disclosure sampler *)

Lemma excerpt80_bounds (m : DisclosureMatch) :
  truncateText (disclosure_text m) 80 <> ""
  /\ str_length (truncateText (disclosure_text m) 80) <= 83.
Proof.
  split; [apply truncateText_nonempty|].
  pose proof (truncateText_length_le (disclosure_text m) 80). lia.
Qed.

Lemma extractTopDisclosures_cases (categoryData : option CategoryData) :
  (categoryData ≫= disclosure_to_regulation_matches = None
   /\ extractTopDisclosures categoryData = ["No disclosure data available"])
  \/ exists ms l,
       categoryData ≫= disclosure_to_regulation_matches = Some ms
       /\ extractTopDisclosures categoryData
          = (fun m => truncateText (disclosure_text m) 80) <$> take 4 l
       /\ ((l = ms /\ (length (List.filter is_strong_match ms) < 4)%nat)
           \/ (l = List.filter is_strong_match ms
               /\ (4 <= length (List.filter is_strong_match ms))%nat)).
Proof.
  unfold extractTopDisclosures.
  destruct (categoryData ≫= disclosure_to_regulation_matches) as [ms|];
    [right | left; split; reflexivity].
  unfold slice0. rewrite length_fmap, length_take.
  destruct (Nat.ltb_spec (Nat.min 4 (length (List.filter is_strong_match ms))) 4)
    as [Hlt|Hge].
  - exists ms, ms. split; [reflexivity|]. split; [reflexivity|]. left. split; [reflexivity | lia].
  - exists ms, (List.filter is_strong_match ms). split; [reflexivity|].
    destruct (Nat.ltb_spec 0 (Nat.min 4 (length (List.filter is_strong_match ms))));
      [|lia].
    split; [reflexivity|]. right. split; [reflexivity | lia].
Qed.

(** X2.  The sampler returns at most four texts, each of them non-empty and
    of at most 83 characters (80 and the ellipsis). *)
Theorem extractTopDisclosures_at_most_four (categoryData : option CategoryData) :
  (length (extractTopDisclosures categoryData) <= 4)%nat
  /\ Forall (fun s => s <> "" /\ str_length s <= 83)
       (extractTopDisclosures categoryData).
Proof.
  destruct (extractTopDisclosures_cases categoryData)
    as [[_ ->]|(ms & l & _ & -> & _)].
  - split; [simpl; lia|]. repeat constructor; [discriminate | vm_compute; discriminate].
  - split.
    + rewrite length_fmap, length_take. lia.
    + apply Forall_fmap, Forall_true. intros m. apply excerpt80_bounds.
Qed.

(** X3.  With four or more strong matches the sampler returns exactly the
    excerpts of the first four strong matches, in received order; weak
    matches are left out. *)
Theorem extractTopDisclosures_strong (cd : CategoryData) (ms : list DisclosureMatch) :
  disclosure_to_regulation_matches cd = Some ms ->
  (4 <= length (List.filter is_strong_match ms))%nat ->
  extractTopDisclosures (Some cd)
  = (fun m => truncateText (disclosure_text m) 80)
      <$> take 4 (List.filter is_strong_match ms)
  /\ length (extractTopDisclosures (Some cd)) = 4%nat.
Proof.
  intros Hms Hstrong.
  destruct (extractTopDisclosures_cases (Some cd))
    as [[Hnone _]|(ms' & l & Hsome & Heq & Hl)].
  - change (Some cd ≫= disclosure_to_regulation_matches)
      with (disclosure_to_regulation_matches cd) in Hnone. congruence.
  - change (Some cd ≫= disclosure_to_regulation_matches)
      with (disclosure_to_regulation_matches cd) in Hsome.
    assert (ms' = ms) as -> by congruence.
    destruct Hl as [[_ Hlt]|[-> _]]; [lia|].
    split; [exact Heq|]. rewrite Heq, length_fmap, length_take. lia.
Qed.

Lemma extractTopDisclosures_strong_witness :
  extractTopDisclosures
    (Some (sampleCategory
             (Some [sampleMatch "d1" true; sampleMatch "d2" false; sampleMatch "d3" true;
                    sampleMatch "d4" true; sampleMatch "d5" true; sampleMatch "d6" true])))
  = ["d1"; "d3"; "d4"; "d5"].
Proof.
  refine (proj1 (extractTopDisclosures_strong
                   (sampleCategory (Some _)) _ eq_refl _)).
  simpl. lia.
Defined.

(** X4.  The sampler returns no text at all exactly when the category has a
    list of disclosure matches and that list is empty. *)
Theorem extractTopDisclosures_empty_iff (categoryData : option CategoryData) :
  extractTopDisclosures categoryData = []
  <-> categoryData ≫= disclosure_to_regulation_matches = Some [].
Proof.
  destruct (extractTopDisclosures_cases categoryData)
    as [[Hnone Heq]|(ms & l & Hsome & Heq & Hl)]; rewrite Heq.
  - rewrite Hnone. split; discriminate.
  - rewrite Hsome. split.
    + intros Hnil. apply fmap_nil_inv in Hnil.
      destruct Hl as [[-> _]|[-> Hge]].
      * destruct ms as [|m ms]; [reflexivity | discriminate Hnil].
      * assert (Hlen : length (take 4 (List.filter is_strong_match ms)) = 0%nat)
          by (rewrite Hnil; reflexivity).
        rewrite length_take in Hlen. lia.
    + intros [= ->]. destruct Hl as [[-> _]|[-> Hge]]; [reflexivity | simpl in Hge; lia].
Qed.

(** ** The first revision: what is collected, what is returned, when it
       throws *)

Section first_revision_content.
Import ResultsDashboardV1.
Context `{NumberFormat}.

Lemma forEach_pushGap_shape (c : string) (cd : CategoryData) (st : Status)
    (l : list RegulationMatch) (acc acc' : list Gap * Z) :
  forEach (pushGap c cd st) l acc = Ok acc' ->
  exists new, acc'.1 = acc.1 ++ new
              /\ recordShape <$> new = (fun reg => expectedShape (c, st, reg)) <$> l.
Proof.
  revert acc. induction l as [|reg l IH]; intros acc Hrun.
  - injection Hrun as <-. exists []. now rewrite app_nil_r.
  - rewrite forEach_cons in Hrun.
    destruct (pushGap c cd st acc reg) as [acc1|] eqn:Hpush; [|discriminate].
    rewrite bind_Ok in Hrun.
    destruct (pushGap_ok _ _ _ _ _ _ Hpush) as (md & ->).
    destruct (IH _ Hrun) as (new & Hacc & Hshape). cbn [fst] in Hacc.
    exists (mkGap acc.2 c md st reg :: new). split.
    + rewrite Hacc, <- app_assoc. reflexivity.
    + rewrite !fmap_cons, Hshape. reflexivity.
Qed.

Lemma pushRegs_shape (c : string) (cd : CategoryData) (st : Status) (n : nat)
    (regs : option (list RegulationMatch)) (acc acc' : list Gap * Z) :
  pushRegs c cd st n regs acc = Ok acc' ->
  exists new, acc'.1 = acc.1 ++ new
              /\ recordShape <$> new
                 = (fun reg => expectedShape (c, st, reg)) <$> take n (default [] regs).
Proof.
  unfold pushRegs. destruct regs as [l|]; intros Hrun.
  - exact (forEach_pushGap_shape _ _ _ _ _ _ Hrun).
  - injection Hrun as <-. exists []. rewrite app_nil_r. split; [reflexivity|].
    destruct n; reflexivity.
Qed.

Lemma processCategory_shape (dr : gmap string CategoryData) (c : string)
    (acc acc' : list Gap * Z) :
  processCategory dr acc c = Ok acc' ->
  exists new, acc'.1 = acc.1 ++ new
              /\ recordShape <$> new = expectedShape <$> selectedOf dr c.
Proof.
  unfold processCategory, selectedOf. intros Hrun.
  destruct (dr !! c) as [cd|]; cbn [mbind option_bind];
    [|injection Hrun as <-; exists []; now rewrite app_nil_r].
  destruct (gap_analysis cd) as [ga|];
    [|injection Hrun as <-; exists []; now rewrite app_nil_r].
  destruct (pushRegs c cd missing 3 _ acc) as [acc1|] eqn:H1; [|discriminate].
  rewrite bind_Ok in Hrun.
  destruct (pushRegs c cd partial 2 _ acc1) as [acc2|] eqn:H2; [|discriminate].
  rewrite bind_Ok in Hrun.
  destruct (pushRegs_shape _ _ _ _ _ _ _ H1) as (m & Hm & Hms).
  destruct (pushRegs_shape _ _ _ _ _ _ _ H2) as (p & Hp & Hps).
  destruct (pushRegs_shape _ _ _ _ _ _ _ Hrun) as (k & Hk & Hks).
  exists (m ++ p ++ k). split.
  - rewrite Hk, Hp, Hm, <- !app_assoc. reflexivity.
  - unfold selectedRegulations.
    rewrite !fmap_app, Hms, Hps, Hks, <- !list_fmap_compose. reflexivity.
Qed.

Lemma forEach_processCategory_shape (dr : gmap string CategoryData)
    (cs : list string) (acc acc' : list Gap * Z) :
  forEach (processCategory dr) cs acc = Ok acc' ->
  exists new, acc'.1 = acc.1 ++ new
              /\ recordShape <$> new = expectedShape <$> (cs ≫= selectedOf dr).
Proof.
  revert acc. induction cs as [|c cs IH]; intros acc Hrun.
  - injection Hrun as <-. exists []. now rewrite app_nil_r.
  - rewrite forEach_cons in Hrun.
    destruct (processCategory dr acc c) as [acc1|] eqn:H1; [|discriminate].
    rewrite bind_Ok in Hrun.
    destruct (processCategory_shape _ _ _ _ H1) as (new1 & Hacc1 & Hs1).
    destruct (IH _ Hrun) as (new2 & Hacc2 & Hs2).
    exists (new1 ++ new2). split.
    + rewrite Hacc2, Hacc1, <- app_assoc. reflexivity.
    + rewrite bind_cons, !fmap_app, Hs1, Hs2. reflexivity.
Qed.

Lemma selectedRegulations_length (ga : GapAnalysis) :
  (length (selectedRegulations ga) <= 6)%nat.
Proof.
  unfold selectedRegulations. rewrite !length_app, !length_fmap, !length_take. lia.
Qed.

Lemma selectedOf_length (dr : gmap string CategoryData) (c : string) :
  (length (selectedOf dr c) <= 6)%nat.
Proof.
  unfold selectedOf. destruct (dr !! c ≫= gap_analysis) as [ga|]; [|simpl; lia].
  rewrite length_fmap. apply selectedRegulations_length.
Qed.

(** X5.  When the aggregation of the first revision completes, the records
    it has collected are, in order, those of the pure description: for the
    categories environmental, social and governance in turn, the first 3
    uncovered, the first 2 partially covered and the first covered
    regulation of a category that has a gap analysis, each with the category
    name, its status, the 60-character excerpt of the regulation text and
    the score of the regulation.  A category without gap analysis gives no
    record.  At most 18 records are collected. *)
Theorem collectGaps_content (dr : gmap string CategoryData)
    (gaps : list Gap) (next : Z) :
  collectGaps dr = Ok (gaps, next) ->
  recordShape <$> gaps = expectedShape <$> (categories ≫= selectedOf dr)
  /\ (forall c, dr !! c ≫= gap_analysis = None ->
                Forall (fun g => category g <> c) gaps)
  /\ (length gaps <= 18)%nat.
Proof.
  intros Hrun. unfold collectGaps in Hrun.
  destruct (forEach_processCategory_shape _ _ _ _ Hrun) as (new & Hacc & Hshape).
  cbn in Hacc. subst new.
  assert (Hlen : length gaps = length (categories ≫= selectedOf dr)).
  { rewrite <- (length_fmap recordShape), Hshape, length_fmap. reflexivity. }
  split; [exact Hshape|]. split.
  - intros c Hnone.
    assert (Hcat : Forall (fun p => p.1.1 <> c) (categories ≫= selectedOf dr)).
    { apply Forall_bind, Forall_forall. intros c' _.
      unfold compose, selectedOf. case_match eqn:Hga; [|constructor].
      apply Forall_fmap, Forall_true. intros p. simpl. congruence. }
    apply Forall_forall. intros g Hg Heq.
    apply (list_elem_of_fmap_2 recordShape) in Hg. rewrite Hshape in Hg.
    apply list_elem_of_fmap_1 in Hg as (p & Hp & Hin).
    rewrite Forall_forall in Hcat. apply (Hcat p Hin).
    rewrite <- Heq. unfold recordShape, expectedShape in Hp. congruence.
  - rewrite Hlen. unfold categories.
    rewrite !bind_cons, !length_app.
    change (length ([] ≫= selectedOf dr)) with 0%nat.
    pose proof (selectedOf_length dr "environmental").
    pose proof (selectedOf_length dr "social").
    pose proof (selectedOf_length dr "governance"). lia.
Qed.

Lemma pushRegs_no_metadata (c : string) (cd : CategoryData) (st : Status) (n : nat)
    (regs : option (list RegulationMatch)) (acc : list Gap * Z) :
  metadata cd = None ->
  pushRegs c cd st n regs acc
  = match take n (default [] regs) with
    | [] => Ok acc
    | _ :: _ => TypeError
    end.
Proof.
  intros Hmd. unfold pushRegs, slice0. destruct regs as [l|].
  - change (default [] (Some l)) with l.
    destruct (take n l) as [|reg l']; [reflexivity|].
    rewrite forEach_cons.
    assert (Hpush : pushGap c cd st acc reg = TypeError)
      by (unfold pushGap; now rewrite Hmd).
    now rewrite Hpush.
  - destruct n; reflexivity.
Qed.

Lemma processCategory_throws_iff (dr : gmap string CategoryData) (c : string)
    (acc : list Gap * Z) :
  processCategory dr acc c = TypeError <-> throwsFor dr c.
Proof.
  unfold throwsFor. split.
  - intros Hrun. destruct (processCategory_error _ _ _ Hrun) as (cd & Hcd & Hmd).
    unfold processCategory in Hrun. rewrite Hcd in Hrun.
    destruct (gap_analysis cd) as [ga|] eqn:Hga; [|discriminate].
    exists cd, ga. repeat split; try assumption.
    rewrite !pushRegs_no_metadata in Hrun by assumption.
    unfold selectedRegulations. intros Hnil.
    apply app_eq_nil in Hnil as [H1 Hnil]. apply app_eq_nil in Hnil as [H2 H3].
    apply fmap_nil_inv in H1, H2, H3. rewrite H1 in Hrun. rewrite bind_Ok in Hrun.
    rewrite pushRegs_no_metadata in Hrun by assumption.
    rewrite H2 in Hrun. rewrite bind_Ok in Hrun.
    rewrite pushRegs_no_metadata in Hrun by assumption.
    rewrite H3 in Hrun. discriminate.
  - intros (cd & ga & Hcd & Hga & Hmd & Hsel).
    unfold processCategory. rewrite Hcd, Hga.
    rewrite pushRegs_no_metadata by assumption. unfold selectedRegulations in Hsel.
    destruct (take 3 (default [] (uncovered_regulations ga))) as [|? ?];
      [|reflexivity].
    rewrite bind_Ok, pushRegs_no_metadata by assumption.
    destruct (take 2 (default [] (partially_covered_regulations ga))) as [|? ?];
      [|reflexivity].
    rewrite bind_Ok, pushRegs_no_metadata by assumption.
    destruct (take 1 (default [] (covered_regulations ga))) as [|? ?];
      [|reflexivity].
    now contradict Hsel.
Qed.

Lemma forEach_processCategory_throws_iff (dr : gmap string CategoryData)
    (cs : list string) (acc : list Gap * Z) :
  forEach (processCategory dr) cs acc = TypeError
  <-> exists c, c ∈ cs /\ throwsFor dr c.
Proof.
  revert acc. induction cs as [|c cs IH]; intros acc.
  - split; [discriminate|]. intros (c & Hin & _). now apply elem_of_nil in Hin.
  - rewrite forEach_cons.
    destruct (processCategory dr acc c) as [acc1|] eqn:H1.
    + rewrite bind_Ok, IH. split.
      * intros (c0 & Hin & Ht). exists c0. split; [now right | exact Ht].
      * intros (c0 & Hin & Ht). apply elem_of_cons in Hin as [->|Hin].
        -- apply (processCategory_throws_iff dr c acc) in Ht. congruence.
        -- exists c0. now split.
    + rewrite bind_TypeError. split; [|reflexivity].
      intros _. exists c. split; [now left|].
      now apply (processCategory_throws_iff dr c acc).
Qed.

(** X6.  The aggregation of the first revision throws exactly when one of
    the three categories has a gap analysis from which at least one
    regulation is selected, and no metadata; otherwise it returns a list. *)
Theorem extractGapAnalysis_throws_iff (dr : gmap string CategoryData) :
  (extractGapAnalysis dr = TypeError <-> exists c, c ∈ categories /\ throwsFor dr c)
  /\ ((forall c, c ∈ categories -> ~ throwsFor dr c)
      <-> exists out, extractGapAnalysis dr = Ok out).
Proof.
  assert (Hiff : extractGapAnalysis dr = TypeError
                 <-> exists c, c ∈ categories /\ throwsFor dr c).
  { rewrite <- (forEach_processCategory_throws_iff dr categories ([], 1)).
    unfold extractGapAnalysis, collectGaps.
    destruct (forEach (processCategory dr) categories ([], 1)) as [acc|].
    - rewrite bind_Ok. split; discriminate.
    - rewrite bind_TypeError. tauto. }
  split; [exact Hiff|]. split.
  - intros Hnever. destruct (extractGapAnalysis dr) as [out|] eqn:Hout.
    + now exists out.
    + exfalso. destruct (proj1 Hiff eq_refl) as (c & Hin & Ht).
      exact (Hnever c Hin Ht).
  - intros [out Hout] c Hin Ht.
    assert (Herr : extractGapAnalysis dr = TypeError) by (apply Hiff; eauto).
    congruence.
Qed.


End first_revision_content.

Section first_revision_examples.
Import ResultsDashboardV1.

Lemma collectGaps_content_witness :
  recordShape
    <$> [mkGap (H := plainFormat) 1 "environmental" sampleMetadata complete
           (sampleRegulation "E1" "Energy use");
         mkGap (H := plainFormat) 2 "social" sampleMetadata missing
           (sampleRegulation "S1" "Fair wages")]
  = [("environmental", complete, "Energy use", None);
     ("social", missing, "Fair wages", None)].
Proof.
  exact (proj1 (collectGaps_content (H := plainFormat) sampleResults _ 3 eq_refl)).
Defined.


End first_revision_examples.

(** ** The second revision: rows, index of disclosures, workbook cells *)

Lemma or_else_nonempty (a : option string) (d : string) : d <> "" -> or_else a d <> "".
Proof. intros Hd. unfold or_else. destruct a as [[|c s]|]; try assumption. discriminate. Qed.

Lemma or_else_Some (s d : string) : s <> "" -> or_else (Some s) d = s.
Proof. intros Hs. destruct s; [congruence | reflexivity]. Qed.

Lemma truthy_or_else (a : option string) (d : string) :
  d <> "" -> truthy (Some (or_else a d)) = true.
Proof.
  intros Hd. pose proof (or_else_nonempty a d Hd) as Hne.
  destruct (or_else a d); [congruence | reflexivity].
Qed.

Section second_revision_rows.
Import ResultsDashboardV2.
Context `{NumberFormat}.

Lemma categoryRows_listed (dr : gmap string CategoryData) (c : string) :
  (fun r => (status r, regulationId r)) <$> categoryRows dr c
  = (fun p => (p.1, or_else (regulation_id p.2) "N/A")) <$> listedOf dr c.
Proof.
  unfold categoryRows, listedOf. destruct (dr !! c) as [cd|]; [|reflexivity].
  cbn [mbind option_bind]. destruct (gap_analysis cd) as [ga|]; [|reflexivity].
  rewrite !fmap_app, <- !list_fmap_compose. reflexivity.
Qed.

(** X8.  The complete list of the second revision has exactly one row for
    every regulation listed in the gap analyses, uncapped: category by
    category in the fixed order, the uncovered regulations labelled MISSING,
    then the partially covered ones labelled PARTIAL, then the covered ones
    labelled COVERED, each row carrying the id of its regulation (or "N/A"
    for a regulation without id). *)
Theorem complete_list_lists_every_regulation (dr : gmap string CategoryData) :
  (fun r => (status r, regulationId r)) <$> extractGapAnalysis dr
  = (fun p => (p.1, or_else (regulation_id p.2) "N/A")) <$> (categories ≫= listedOf dr)
  /\ length (extractGapAnalysis dr) = length (categories ≫= listedOf dr).
Proof.
  assert (Heq : (fun r => (status r, regulationId r)) <$> extractGapAnalysis dr
                = (fun p => (p.1, or_else (regulation_id p.2) "N/A"))
                    <$> (categories ≫= listedOf dr)).
  { rewrite extractGapAnalysis_unfold. unfold categories.
    rewrite !bind_cons, !fmap_app, !categoryRows_listed.
    change ([] ≫= listedOf dr) with (@nil (string * RegulationMatch)).
    now rewrite app_nil_r. }
  split; [exact Heq|].
  apply (f_equal length) in Heq. now rewrite !length_fmap in Heq.
Qed.





Lemma categoryRows_nonblank (dr : gmap string CategoryData) (c : string) :
  c <> "" ->
  Forall (fun r => category r <> "" /\ regulationId r <> "" /\ frameworkText r <> ""
                   /\ disclosureId r <> "" /\ disclosureText r <> ""
                   /\ regulationName r <> "" /\ coverageScore r <> "")
    (categoryRows dr c).
Proof.
  intros Hc. unfold categoryRows. destruct (dr !! c) as [cd|]; [|constructor].
  destruct (gap_analysis cd) as [gap|]; [|constructor].
  rewrite !Forall_app, !Forall_fmap.
  repeat split; apply Forall_true; intros r; unfold compose, makeRow; simpl;
    repeat split; apply or_else_nonempty; assumption || discriminate.
Qed.

Lemma toUpperCase_labels (s : string) :
  s = "MISSING" \/ s = "PARTIAL" \/ s = "COVERED" -> toUpperCase s = s.
Proof. intros [-> | [-> | ->]]; reflexivity. Qed.

(** X11.  No cell of a row of the complete list is blank, so the fallbacks
    of the export never apply to it: the row object written for it holds its
    position, its position plus one, and the eight fields of the row as they
    are (the status label is already in upper case). *)
Theorem excelRow_copies_fields (dr : gmap string CategoryData)
    (metadata : option Meta) (index : Z) :
  Forall (fun item =>
            excelRow metadata index item
            = [("key", Num index); ("S.No", Num (index + 1));
               ("Category", Str (category item)); ("Status", Str (status item));
               ("Regulation Clause ID", Str (regulationId item));
               ("Framework Requirement Text", Str (frameworkText item));
               ("Disclosure Clause ID", Str (disclosureId item));
               ("Company Disclosure Text", Str (disclosureText item));
               ("Regulation Name", Str (regulationName item));
               ("Coverage Score (%)", Str (coverageScore item))]
            /\ Forall (fun cell => cell.2 <> Str "") (excelRow metadata index item))
    (extractGapAnalysis dr).
Proof.
  assert (Hrows : Forall (fun r => (status r = "MISSING" \/ status r = "PARTIAL"
                                    \/ status r = "COVERED")
                                   /\ category r <> "" /\ regulationId r <> ""
                                   /\ frameworkText r <> "" /\ disclosureId r <> ""
                                   /\ disclosureText r <> "" /\ regulationName r <> ""
                                   /\ coverageScore r <> "")
                    (extractGapAnalysis dr)).
  { rewrite extractGapAnalysis_unfold, !Forall_app.
    repeat split; apply Forall_and; split;
      (apply categoryRows_labels || (apply categoryRows_nonblank; discriminate)). }
  eapply Forall_impl; [exact Hrows|].
  intros item (Hlabel & Hc & Hid & Hfw & Hdi & Hdt & Hrn & Hcs).
  assert (Hst : status item <> "") by (destruct Hlabel as [-> | [-> | ->]]; discriminate).
  assert (Heq : excelRow metadata index item
                = [("key", Num index); ("S.No", Num (index + 1));
                   ("Category", Str (category item)); ("Status", Str (status item));
                   ("Regulation Clause ID", Str (regulationId item));
                   ("Framework Requirement Text", Str (frameworkText item));
                   ("Disclosure Clause ID", Str (disclosureId item));
                   ("Company Disclosure Text", Str (disclosureText item));
                   ("Regulation Name", Str (regulationName item));
                   ("Coverage Score (%)", Str (coverageScore item))]).
  { unfold excelRow. rewrite (toUpperCase_labels _ Hlabel).
    assert (Hname : or_else (or_opt (Some (regulationName item))
                               (Common.regulationId <$> metadata)) "N/A"
                    = regulationName item).
    { unfold or_opt, or_else, truthy. destruct (regulationName item); [congruence | reflexivity]. }
    rewrite Hname, !or_else_Some by assumption. reflexivity. }
  split; [exact Heq|]. rewrite Heq.
  repeat constructor; simpl; try discriminate; congruence.
Qed.

End second_revision_rows.

(** ** The second revision: workbook numbering, file name, panel *)

Section second_revision_export.
Import ResultsDashboardV2 DashboardView.

Lemma field_SNo (metadata : option Meta) (index : Z) (item : Row) :
  field "S.No" (excelRow metadata index item) = Some (Num (index + 1)).
Proof. reflexivity. Qed.

Lemma excelRow_columns (metadata : option Meta) (index : Z) (item : Row) :
  (excelRow metadata index item).*1 = gapSheetColumns.
Proof. reflexivity. Qed.

(** X12.  In the sheet "Gap Analysis" the column "S.No" counts 1, 2, ..., n
    down the rows, n being the number of records of the complete list; every
    row has the same ten columns in the same order, and there is one row per
    record (none when nothing is written). *)
Theorem gap_sheet_numbering (st : State) (fullYear : Z) :
  let written := writtenRows "Gap Analysis" (downloadExcel st fullYear) in
  field "S.No" <$> written
  = (fun i => Some (Num i)) <$> seqZ 1 (Z.of_nat (length (completeGapAnalysis st)))
  /\ Forall (fun row => row.*1 = gapSheetColumns) written
  /\ length written = length (completeGapAnalysis st).
Proof.
  cbv zeta. unfold downloadExcel.
  destruct (completeGapAnalysis st) as [|item items]; [repeat split; constructor|].
  generalize (item :: items) as l. intros l.
  change (writtenRows "Gap Analysis" (WriteFile _ _))
    with (imap (fun index item => excelRow (metadata_ st) (Z.of_nat index) item) l).
  split; [|split].
  - rewrite fmap_imap.
    rewrite (imap_ext _ (fun i _ => Some (Num (Z.of_nat i + 1))))
      by (intros; apply field_SNo).
    rewrite imap_seq_0. unfold seqZ. rewrite Nat2Z.id, <- list_fmap_compose.
    reflexivity.
  - apply Forall_forall. intros row Hrow.
    apply list_elem_of_lookup in Hrow as [i Hi].
    rewrite list_lookup_imap in Hi.
    destruct (l !! i) as [x|]; [|discriminate]. injection Hi as <-.
    apply excelRow_columns.
  - apply length_imap.
Qed.

Lemma filename_of_metadata (ad : AnalysisData) (fullYear : Z) :
  filename (Some (extractMetadata ad)) fullYear
  = "Gap_Analysis_" +:+ companyName (extractMetadata ad) +:+ "_"
    +:+ reportYear (extractMetadata ad) +:+ ".xlsx".
Proof.
  unfold filename. cbn [fmap option_fmap option_map].
  assert (Hc : companyName (extractMetadata ad) <> "")
    by (apply or_else_nonempty; discriminate).
  assert (Hy : reportYear (extractMetadata ad) <> "")
    by (apply or_else_nonempty; discriminate).
  rewrite !or_else_Some by assumption.
  destruct (reportYear (extractMetadata ad)) eqn:Heq; [congruence | reflexivity].
Qed.

Context `{NumberFormat}.

Lemma loaded_state (navigated stored : option AnalysisData) :
  let st := loadAnalysisResults navigated stored initial in
  gapAnalysis st = take 7 (completeGapAnalysis st)
  /\ (completeGapAnalysis st = []
      \/ exists ad, analysisSource navigated stored = Some ad
                    /\ metadata_ st = Some (extractMetadata ad)).
Proof.
  cbv zeta. unfold loadAnalysisResults.
  destruct (analysisSource navigated stored) as [ad|]; [|split; [reflexivity | now left]].
  destruct (formattedEsgData _); [|split; [reflexivity | now left]].
  split; [reflexivity|]. right. now exists ad.
Qed.

(** X13.  What the export of a freshly loaded dashboard does never depends on
    the current date: either nothing is written, or the workbook is written
    under the name made of the company name and the report year of the
    analysis (with their defaults "Company" and "2024"), the year of the
    clock being a fallback that is never used. *)
Theorem export_ignores_the_clock (navigated stored : option AnalysisData)
    (year1 year2 : Z) :
  let st := loadAnalysisResults navigated stored initial in
  downloadExcel st year1 = downloadExcel st year2
  /\ forall wb name,
       downloadExcel st year1 = WriteFile wb name ->
       exists ad,
         analysisSource navigated stored = Some ad
         /\ name = "Gap_Analysis_" +:+ companyName (extractMetadata ad) +:+ "_"
                   +:+ reportYear (extractMetadata ad) +:+ ".xlsx".
Proof.
  cbv zeta. destruct (loaded_state navigated stored) as [_ Hst].
  set (st := loadAnalysisResults navigated stored initial) in *.
  unfold downloadExcel. destruct Hst as [Hnil|(ad & Had & Hmd)].
  - rewrite Hnil. split; [reflexivity | discriminate].
  - rewrite Hmd. destruct (completeGapAnalysis st) as [|item items];
      [split; [reflexivity | discriminate]|].
    rewrite !filename_of_metadata. split; [reflexivity|].
    intros wb name [= _ <-]. now exists ad.
Qed.

(** X14.  The gap panel of a freshly loaded dashboard shows the placeholder
    exactly when the complete list is empty; otherwise it shows the first
    seven records, and the notice "Showing 7 of n regulations ..." exactly
    when some record of the complete list is not shown, in which case seven
    cards are shown and n is the length of the complete list. *)
Theorem gap_panel_notice (navigated stored : option AnalysisData) :
  let st := loadAnalysisResults navigated stored initial in
  match gapPanel st with
  | NoGaps => completeGapAnalysis st = []
  | GapCards cards notice =>
      cards = take 7 (completeGapAnalysis st)
      /\ completeGapAnalysis st <> []
      /\ (notice = None <-> cards = completeGapAnalysis st)
      /\ (notice <> None ->
          length cards = 7%nat
          /\ notice
             = Some ("Showing 7 of "
                     +:+ Z_toString (Z.of_nat (length (completeGapAnalysis st)))
                     +:+ " regulations. Download the full report for complete analysis."))
  end.
Proof.
  cbv zeta. destruct (loaded_state navigated stored) as [Hview _].
  set (st := loadAnalysisResults navigated stored initial) in *.
  unfold gapPanel. rewrite Hview.
  destruct (completeGapAnalysis st) as [|item items] eqn:Hall; [reflexivity|].
  change (take 7 (item :: items)) with (item :: take 6 items).
  change (item :: take 6 items) with (take 7 (item :: items)).
  set (l := item :: items) in *.
  destruct (take 7 l) as [|c cs] eqn:Htake; [discriminate|]. rewrite <- Htake.
  split; [reflexivity|]. split; [discriminate|].
  destruct (Nat.ltb_spec 7 (length l)) as [Hlt|Hge].
  - split; [split; [discriminate|]|].
    + intros Heq. apply (f_equal length) in Heq. rewrite length_take in Heq. lia.
    + intros _. split; [rewrite length_take; lia | reflexivity].
  - split; [split; [intros _; now apply take_ge | reflexivity] | congruence].
Qed.

(** X15.  A row of the complete list never gets one of the three status
    looks: its label is in upper case, so [getStatusColor] answers with the
    neutral default, [getStatusIcon] with no icon, and the badge takes the
    colours of the last branch (those meant for missing), also for a row
    labelled COVERED. *)
Theorem rows_get_default_look (dr : gmap string CategoryData) :
  Forall (fun r => getStatusColor (status r) = "bg-slate-50 border-slate-300"
                   /\ getStatusIcon (status r) = None
                   /\ badgeClass (status r) = "bg-red-100 text-red-700")
    (extractGapAnalysis dr).
Proof.
  assert (Hlabels : Forall (fun r => status r = "MISSING" \/ status r = "PARTIAL"
                                     \/ status r = "COVERED") (extractGapAnalysis dr)).
  { rewrite extractGapAnalysis_unfold, !Forall_app.
    repeat split; apply categoryRows_labels. }
  eapply Forall_impl; [exact Hlabels|].
  intros r [-> | [-> | ->]]; repeat split.
Qed.

End second_revision_export.

(** ** Buckets without statistics *)

Lemma extractCategoryStats_throws_iff (categoryData : option CategoryData) :
  extractCategoryStats categoryData = TypeError
  <-> exists cd ga, categoryData = Some cd /\ gap_analysis cd = Some ga
                    /\ coverage_statistics ga = None.
Proof.
  unfold extractCategoryStats. destruct categoryData as [cd|]; cbn [mbind option_bind].
  - destruct (gap_analysis cd) as [ga|] eqn:Hga.
    + destruct (coverage_statistics ga) eqn:Hcs.
      * split; [discriminate|]. intros (cd' & ga' & [= <-] & Hga' & Hcs'). congruence.
      * split; [|reflexivity]. intros _. now exists cd, ga.
    + split; [discriminate|]. intros (cd' & ga' & [= <-] & Hga' & _). congruence.
  - split; [discriminate|]. intros (cd' & ga' & Hcd & _). discriminate.
Qed.

Lemma bucket_throws_iff (dr : gmap string CategoryData)
    (letter name key color bg : string) :
  bucket dr letter name key color bg = TypeError <-> lacksStatistics dr key.
Proof.
  unfold bucket, lacksStatistics.
  rewrite <- (extractCategoryStats_throws_iff (dr !! key)).
  destruct (extractCategoryStats (dr !! key)); [rewrite bind_Ok | rewrite bind_TypeError].
  - split; discriminate.
  - tauto.
Qed.

(** X16.  Building the three buckets throws exactly when one of the three
    categories has a gap analysis without coverage statistics.  The second
    revision then shows neither buckets nor gaps: after the load from the
    initial state only the metadata are set and the loading flag is
    cleared. *)
Theorem formattedEsgData_throws_iff (dr : gmap string CategoryData) :
  (formattedEsgData dr = TypeError <-> exists c, c ∈ categories /\ lacksStatistics dr c)
  /\ forall (F : NumberFormat) navigated stored ad,
       analysisSource navigated stored = Some ad ->
       default ∅ (detailed_results ad) = dr ->
       formattedEsgData dr = TypeError ->
       ResultsDashboardV2.loadAnalysisResults navigated stored ResultsDashboardV2.initial
       = {| ResultsDashboardV2.esgData := None;
            ResultsDashboardV2.gapAnalysis := [];
            ResultsDashboardV2.completeGapAnalysis := [];
            ResultsDashboardV2.loading := false;
            ResultsDashboardV2.metadata_ := Some (extractMetadata ad) |}.
Proof.
  split.
  - unfold formattedEsgData, categories.
    destruct (bucket dr "E" _ _ _ _) as [e|] eqn:He.
    2:{ rewrite bind_TypeError. split; [|reflexivity]. intros _.
        exists "environmental". split; [set_solver|]. now apply bucket_throws_iff in He. }
    rewrite bind_Ok.
    destruct (bucket dr "S" _ _ _ _) as [s|] eqn:Hs.
    2:{ rewrite bind_TypeError. split; [|reflexivity]. intros _.
        exists "social". split; [set_solver|]. now apply bucket_throws_iff in Hs. }
    rewrite bind_Ok.
    destruct (bucket dr "G" _ _ _ _) as [g|] eqn:Hg.
    2:{ rewrite bind_TypeError. split; [|reflexivity]. intros _.
        exists "governance". split; [set_solver|]. now apply bucket_throws_iff in Hg. }
    rewrite bind_Ok. split; [discriminate|].
    intros (c & Hin & Hc).
    assert (Hno : forall letter name color bg b,
               bucket dr letter name c color bg = Ok b -> False).
    { intros letter name color bg b Hb.
      apply (bucket_throws_iff dr letter name c color bg) in Hc. congruence. }
    rewrite !elem_of_cons, elem_of_nil in Hin.
    destruct Hin as [-> | [-> | [-> | []]]]; exfalso; eauto.
  - intros F navigated stored ad Had Hdr Hthrow.
    unfold ResultsDashboardV2.loadAnalysisResults. rewrite Had, Hdr, Hthrow. reflexivity.
Qed.

(** ** The report page: loading, regenerating, summary card *)

Section report_page_extras.
Import ReportPage ReportView.

Lemma cachedReport_Some (now : Z) (slot : option ReportData) (r : ReportData) :
  cachedReport now slot = Some r ->
  slot = Some r /\ exists t, timestamp r = Some t /\ now - t < 3600000.
Proof.
  unfold cachedReport. destruct slot as [parsed|]; [|discriminate].
  destruct (timestamp parsed) as [t|] eqn:Ht; [|discriminate].
  destruct (Z.ltb_spec (now - t) 3600000); [|discriminate].
  intros [= <-]. split; [reflexivity|]. now exists t.
Qed.

(** X17.  A load always ends with the loading flag cleared, and in one of two
    ways: without error, and then the report shown is the one held in the
    storage slot; or with an error message, and then the report shown and
    the storage slot are what they were before. *)
Theorem loadOrGenerateReport_outcome (now : Z) (response : Response) (later : Z)
    (st : State) :
  let st' := loadOrGenerateReport now response later st in
  loading st' = false
  /\ ((error st' = None
       /\ exists r, reportData st' = Some r /\ complianceReport st' = Some r)
      \/ (error st' <> None
          /\ reportData st' = reportData st
          /\ complianceReport st' = complianceReport st)).
Proof.
  cbv zeta. unfold loadOrGenerateReport.
  destruct (cachedReport now (complianceReport st)) as [parsed|] eqn:Hc.
  - apply cachedReport_Some in Hc as [Hslot _].
    split; [reflexivity|]. left. split; [reflexivity|]. now exists parsed.
  - destruct response as [[|] body|message]; cbn.
    + split; [reflexivity|]. left. split; [reflexivity|]. eauto.
    + split; [reflexivity|]. right. repeat split. discriminate.
    + split; [reflexivity|]. right. repeat split. discriminate.
Qed.

(** X18.  Regenerating never serves the stored report, however fresh: the
    outcome does not depend on the storage slot.  With a successful reply the
    new report, stamped with the time of the generation, is shown and
    stored; with a failure the error is shown, the report on screen stays,
    and the storage slot is left empty. *)
Theorem handleRegenerateReport_outcome (now : Z) (response : Response) (later : Z)
    (st : State) :
  (forall slot,
     handleRegenerateReport now response later
       {| loading := loading st; reportData := reportData st; error := error st;
          generating := generating st; complianceReport := slot |}
     = handleRegenerateReport now response later st)
  /\ match response with
     | Replied true body =>
         let fresh := {| data := body; timestamp := Some later |} in
         handleRegenerateReport now response later st
         = {| loading := false; reportData := Some fresh; error := None;
              generating := false; complianceReport := Some fresh |}
     | Replied false body =>
         handleRegenerateReport now response later st
         = {| loading := false; reportData := reportData st;
              error := Some (or_else (detail body) "Failed to generate report");
              generating := false; complianceReport := None |}
     | Failed message =>
         handleRegenerateReport now response later st
         = {| loading := false; reportData := reportData st; error := Some message;
              generating := false; complianceReport := None |}
     end.
Proof.
  split; [reflexivity|]. destruct response as [[|] body|message]; reflexivity.
Qed.

(** X19.  Freshness only decays: a stored report that is not served at some
    instant is not served at any later instant, and one that is served at
    some instant is served at every earlier instant. *)
Theorem cachedReport_decays (now now' : Z) (slot : option ReportData) :
  now <= now' ->
  (cachedReport now slot = None -> cachedReport now' slot = None)
  /\ (forall r, cachedReport now' slot = Some r -> cachedReport now slot = Some r).
Proof.
  intros Hle. unfold cachedReport. destruct slot as [parsed|]; [|split; congruence].
  destruct (timestamp parsed) as [t|]; [|split; congruence].
  destruct (Z.ltb_spec (now - t) 3600000), (Z.ltb_spec (now' - t) 3600000);
    split; congruence || lia.
Qed.

Lemma cachedReport_decays_witness :
  cachedReport (1000 + 62 * 60 * 1000) (Some sampleReport) = None.
Proof.
  assert (Hle : 1000 + 61 * 60 * 1000 <= 1000 + 62 * 60 * 1000) by lia.
  apply (proj1 (cachedReport_decays _ _ (Some sampleReport) Hle)).
  reflexivity.
Defined.

Lemma shorten_length_le (limit : Z) (text : string) :
  0 <= limit -> str_length (shorten limit text) <= limit + 3.
Proof.
  intros Hl. unfold shorten. destruct (Z.ltb_spec limit (str_length text)); [|lia].
  pose proof (substring_length_le text limit).
  unfold str_length in *. rewrite append_length. simpl String.length. lia.
Qed.

Lemma shorten_short (limit : Z) (text : string) :
  str_length text <= limit -> shorten limit text = text.
Proof.
  intros Hl. unfold shorten. destruct (Z.ltb_spec limit (str_length text)); [lia | reflexivity].
Qed.

(** X20.  The summary card shows at most 5 key gaps of at most 123
    characters each and at most 6 priority actions of at most 153 characters
    each, numbered 1, 2, ... in order; texts within the limits (120 and 150
    characters) are shown as they are. *)
Theorem summary_card_is_bounded (r : ReportData) :
  let areas := default [] (key_missing_areas (data r)) in
  let actions := default [] (suggested_actions (data r)) in
  (length (keyGaps r) <= 5)%nat
  /\ Forall (fun s => str_length s <= 123) (keyGaps r)
  /\ (Forall (fun s => str_length s <= 120) areas -> keyGaps r = take 5 areas)
  /\ (length (priorityActions r) <= 6)%nat
  /\ (priorityActions r).*1 = seqZ 1 (Z.of_nat (length (priorityActions r)))
  /\ Forall (fun s => str_length s <= 153) (priorityActions r).*2
  /\ (Forall (fun s => str_length s <= 150) actions ->
      (priorityActions r).*2 = take 6 actions).
Proof.
  cbv zeta. unfold keyGaps, priorityActions, slice0.
  set (areas := default [] (key_missing_areas (data r))).
  set (actions := default [] (suggested_actions (data r))).
  assert (Hsnd : (imap (fun idx action => (Z.of_nat idx + 1, shorten 150 action))
                    (take 6 actions)).*2 = shorten 150 <$> take 6 actions).
  { rewrite fmap_imap. apply list_eq. intros i.
    rewrite list_lookup_imap, list_lookup_fmap. now destruct (take 6 actions !! i). }
  repeat split.
  - rewrite length_fmap, length_take. lia.
  - apply Forall_fmap, Forall_true. intros s.
    pose proof (shorten_length_le 120 s). unfold compose. lia.
  - intros Hall. rewrite <- (list_fmap_id (take 5 areas)) at 2.
    apply Forall_fmap_ext_1. apply Forall_take.
    eapply Forall_impl; [exact Hall|]. intros s Hs. now apply shorten_short.
  - rewrite length_imap, length_take. lia.
  - rewrite fmap_imap, length_imap.
    rewrite (imap_ext _ (fun i _ => Z.of_nat i + 1)) by reflexivity.
    rewrite imap_seq_0. unfold seqZ. now rewrite Nat2Z.id.
  - rewrite Hsnd. apply Forall_fmap, Forall_true. intros s.
    pose proof (shorten_length_le 150 s). unfold compose. lia.
  - intros Hall. rewrite Hsnd. rewrite <- (list_fmap_id (take 6 actions)) at 2.
    apply Forall_fmap_ext_1. apply Forall_take.
    eapply Forall_impl; [exact Hall|]. intros s Hs. now apply shorten_short.
Qed.

End report_page_extras.

(** ** Markdown: what the substitutions and the splitting preserve *)

Lemma str_append_assoc (s t u : string) : (s +:+ t) +:+ u = s +:+ (t +:+ u).
Proof.
  induction s as [|a s IH]; [reflexivity|]. rewrite !append_String. now rewrite IH.
Qed.

Lemma str_append_nil_r (s : string) : s +:+ "" = s.
Proof. induction s as [|a s IH]; [reflexivity|]. rewrite append_String. now rewrite IH. Qed.

Lemma occurs_String (c a : ascii) (s : string) :
  occurs c (String a s) <-> a = c \/ occurs c s.
Proof. reflexivity. Qed.

Lemma occurs_append (c : ascii) (s t : string) :
  occurs c (s +:+ t) <-> occurs c s \/ occurs c t.
Proof.
  induction s as [|a s IH].
  - unfold occurs at 2. simpl. tauto.
  - rewrite append_String, !occurs_String, IH. tauto.
Qed.

Lemma occurs_str_drop (c : ascii) (k : nat) (s : string) :
  occurs c (str_drop k s) -> occurs c s.
Proof.
  revert s. induction k as [|k IH]; intros [|a s]; simpl; try tauto.
  intros Hc. apply occurs_String. right. now apply IH.
Qed.

Lemma consumed_one (a : ascii) (rest : string) : consumed (String a rest) rest = 1%nat.
Proof. unfold consumed. simpl. lia. Qed.

Lemma consumed_none (s : string) : consumed s s = 0%nat.
Proof. unfold consumed. lia. Qed.

Lemma exec_Lit_nl (prev : option ascii) (a : ascii) (rest : string) :
  exec [Lit nl] prev (String a rest)
  = if Ascii.eqb "010" a then Some ([], rest) else None.
Proof.
  unfold nl. cbn [exec strip_prefix]. destruct (Ascii.eqb "010" a); reflexivity.
Qed.

Section newline_replacement.
Variable new : list string -> string.

Lemma replace_from_nl_cons (prev : option ascii) (a : ascii) (rest : string) :
  replace_from [Lit nl] new 0 prev (String a rest)
  = if Ascii.eqb "010" a
    then new [] +:+ replace_from [Lit nl] new 0 (Some a) rest
    else String a (replace_from [Lit nl] new 0 (Some a) rest).
Proof.
  cbn [replace_from]. rewrite exec_Lit_nl.
  destruct (Ascii.eqb "010" a); [|reflexivity].
  now rewrite consumed_one.
Qed.

Lemma replace_from_nl_no_LF (prev : option ascii) (s : string) :
  ~ occurs "010" (new []) ->
  ~ occurs "010" (replace_from [Lit nl] new 0 prev s).
Proof.
  intros Hnew. revert prev. induction s as [|a s IH]; intros prev.
  - cbn. unfold occurs. simpl. tauto.
  - rewrite replace_from_nl_cons. destruct (Ascii.eqb_spec "010" a) as [Ha|Ha].
    + rewrite occurs_append. specialize (IH (Some a)). tauto.
    + rewrite occurs_String. specialize (IH (Some a)). intros [Heq|Hin]; [congruence | tauto].
Qed.

End newline_replacement.

Lemma replace_from_no_match (re : regex) (new : list string -> string) (s : string) :
  (forall prev k, exec re prev (str_drop k s) = None) ->
  forall prev, replace_from re new 0 prev s = s.
Proof.
  induction s as [|a s IH]; intros Hno prev.
  - pose proof (Hno prev O) as H0. change (exec re prev "" = None) in H0.
    cbn [replace_from]. now rewrite H0.
  - pose proof (Hno prev O) as H0. change (exec re prev (String a s) = None) in H0.
    cbn [replace_from]. rewrite H0.
    rewrite IH; [reflexivity|]. intros prev' k. exact (Hno prev' (S k)).
Qed.

Lemma exec_Lit_absent (c : ascii) (l : string) (re : regex)
    (prev : option ascii) (s : string) (k : nat) :
  ~ occurs c s -> exec (Lit (String c l) :: re) prev (str_drop k s) = None.
Proof.
  intros Hc. cbn [exec]. destruct (str_drop k s) as [|a r] eqn:Hdrop; [reflexivity|].
  cbn [strip_prefix]. destruct (Ascii.eqb_spec c a) as [->|Hne]; [|reflexivity].
  exfalso. apply Hc, (occurs_str_drop a k). rewrite Hdrop. apply occurs_String. now left.
Qed.

Lemma exec_Bol_absent (m : bool) (re : regex) (prev : option ascii) (s : string) :
  exec re prev s = None -> exec (Bol m :: re) prev s = None.
Proof. intros Hno. cbn [exec]. now destruct (at_bol m prev). Qed.

Lemma exec_Ahead (l : string) (prev : option ascii) (s : string) :
  exec [Ahead l] prev s = if startsWith s l then Some ([], s) else None.
Proof. cbn [exec]. now destruct (startsWith s l). Qed.

Lemma split_from_nonempty (re : regex) (s : string) :
  forall skip cur prev, split_from re skip cur prev s <> [].
Proof.
  induction s as [|a s IH]; intros skip cur prev; cbn [split_from]; [discriminate|].
  destruct skip as [|k]; [|apply IH].
  destruct (exec re prev (String a s)) as [[caps rest']|]; [|apply IH].
  destruct (consumed (String a s) rest') as [|k], cur as [|c cur];
    try discriminate; apply IH.
Qed.

Lemma concat_cons (sep x : string) (l : list string) :
  l <> [] -> String.concat sep (x :: l) = x +:+ sep +:+ String.concat sep l.
Proof. destruct l; [congruence | reflexivity]. Qed.

Lemma split_from_Ahead_concat (l : string) (s : string) :
  forall cur prev,
    String.concat "" (split_from [Ahead l] 0 cur prev s) = cur +:+ s.
Proof.
  induction s as [|a s IH]; intros cur prev.
  - cbn [split_from String.concat]. now rewrite str_append_nil_r.
  - cbn [split_from]. rewrite exec_Ahead.
    destruct (startsWith (String a s) l).
    + rewrite consumed_none. destruct cur as [|c cur].
      * now rewrite IH.
      * change ([] ++ ?x) with x.
        rewrite concat_cons by apply split_from_nonempty. now rewrite IH.
    + rewrite IH, str_append_assoc. reflexivity.
Qed.

Lemma split_from_nl_cons (cur : string) (prev : option ascii) (a : ascii) (rest : string) :
  split_from [Lit nl] 0 cur prev (String a rest)
  = if Ascii.eqb "010" a
    then cur :: split_from [Lit nl] 0 "" (Some a) rest
    else split_from [Lit nl] 0 (cur +:+ String a "") (Some a) rest.
Proof.
  cbn [split_from]. rewrite exec_Lit_nl.
  destruct (Ascii.eqb "010" a); [|reflexivity].
  now rewrite consumed_one.
Qed.

Lemma split_from_nl_prev (s : string) :
  forall cur prev prev',
    split_from [Lit nl] 0 cur prev s = split_from [Lit nl] 0 cur prev' s.
Proof.
  destruct s as [|a s]; intros cur prev prev'; [reflexivity|].
  now rewrite !split_from_nl_cons.
Qed.

Lemma split_nl_from (s : string) : split [Lit nl] s = split_from [Lit nl] 0 "" None s.
Proof. destruct s; reflexivity. Qed.

Lemma split_from_nl_join (s : string) :
  forall cur prev, join nl (split_from [Lit nl] 0 cur prev s) = cur +:+ s.
Proof.
  unfold join. induction s as [|a s IH]; intros cur prev.
  - cbn [split_from String.concat]. now rewrite str_append_nil_r.
  - rewrite split_from_nl_cons. destruct (Ascii.eqb_spec "010" a) as [<-|Hne].
    + rewrite concat_cons by apply split_from_nonempty. now rewrite IH.
    + now rewrite IH, str_append_assoc.
Qed.

Lemma split_from_nl_append (x t : string) :
  ~ occurs "010" x ->
  forall cur prev,
    split_from [Lit nl] 0 cur prev (x +:+ t)
    = split_from [Lit nl] 0 (cur +:+ x) prev t.
Proof.
  induction x as [|a x IH]; intros Hx cur prev.
  - now rewrite str_append_nil_r.
  - rewrite append_String, split_from_nl_cons.
    destruct (Ascii.eqb_spec "010" a) as [<-|Hne].
    + exfalso. apply Hx, occurs_String. now left.
    + rewrite IH by (intros Hin; apply Hx, occurs_String; now right).
      rewrite str_append_assoc. apply split_from_nl_prev.
Qed.

Lemma split_from_nl_lines (s : string) :
  forall cur prev,
    ~ occurs "010" cur ->
    Forall (fun x => ~ occurs "010" x) (split_from [Lit nl] 0 cur prev s).
Proof.
  induction s as [|a s IH]; intros cur prev Hcur.
  - repeat constructor. exact Hcur.
  - rewrite split_from_nl_cons. destruct (Ascii.eqb_spec "010" a) as [<-|Hne].
    + constructor; [exact Hcur|]. apply IH. unfold occurs. simpl. tauto.
    + apply IH. rewrite occurs_append, occurs_String.
      intros [Hin | [Heq | []]]; [exact (Hcur Hin) | congruence].
Qed.

Lemma split_nl_join (ls : list string) :
  ls <> [] -> Forall (fun x => ~ occurs "010" x) ls ->
  split [Lit nl] (join nl ls) = ls.
Proof.
  intros Hne Hall. rewrite split_nl_from. unfold join.
  induction Hall as [|x ls Hx Hall IH]; [congruence|].
  destruct ls as [|y ls].
  - cbn [String.concat]. rewrite <- (str_append_nil_r x) at 1.
    now rewrite split_from_nl_append.
  - rewrite concat_cons by discriminate.
    rewrite split_from_nl_append by assumption.
    change (nl +:+ String.concat nl (y :: ls))
      with (String "010" (String.concat nl (y :: ls))).
    rewrite split_from_nl_cons.
    change (Ascii.eqb "010" "010") with true. cbv iota.
    rewrite (split_from_nl_prev _ _ _ None), IH by discriminate. reflexivity.
Qed.

Section report_markdown.
Import ReportPage.

(** X21.  The document rendering never contains a line feed: it is a single
    line, whatever the markdown. *)
Theorem convertMarkdownToHTML_single_line (markdown : option string) :
  ~ occurs "010" (convertMarkdownToHTML markdown).
Proof.
  unfold convertMarkdownToHTML. destruct markdown as [[|a s]|];
    try (unfold occurs; simpl; tauto).
  cbv zeta. unfold replaceAll at 1. apply replace_from_nl_no_LF.
  unfold occurs. simpl. intuition discriminate.
Qed.

(** X22.  A text without the characters [#], [*], [-] and without line feed
    is returned as it is by the document rendering: nothing else is
    substituted, and in particular HTML markup in the text is not escaped. *)
Theorem convertMarkdownToHTML_plain_text (s : string) :
  ~ occurs "#" s -> ~ occurs "*" s -> ~ occurs "-" s -> ~ occurs "010" s ->
  convertMarkdownToHTML (Some s) = s.
Proof.
  intros Hhash Hstar Hdash Hnl. unfold convertMarkdownToHTML.
  destruct s as [|a s]; [reflexivity|]. cbv zeta. unfold replaceAll.
  rewrite (replace_from_no_match [Lit "### "; _])
    by (intros; now apply exec_Lit_absent).
  rewrite (replace_from_no_match [Lit "## "; _])
    by (intros; now apply exec_Lit_absent).
  rewrite (replace_from_no_match [Lit "# "; _])
    by (intros; now apply exec_Lit_absent).
  rewrite (replace_from_no_match [Lit "**"; _; _])
    by (intros; now apply exec_Lit_absent).
  rewrite (replace_from_no_match [Bol true; Lit "* "; _])
    by (intros; now apply exec_Bol_absent, exec_Lit_absent).
  rewrite (replace_from_no_match [Bol true; Lit "- "; _])
    by (intros; now apply exec_Bol_absent, exec_Lit_absent).
  change (nl +:+ nl) with (String "010" nl).
  rewrite (replace_from_no_match [Lit (String "010" nl)])
    by (intros; now apply exec_Lit_absent).
  unfold nl.
  rewrite (replace_from_no_match [Lit (String "010" "")])
    by (intros; now apply exec_Lit_absent).
  reflexivity.
Qed.

Lemma convertMarkdownToHTML_plain_text_witness :
  convertMarkdownToHTML (Some sampleHtmlText) = sampleHtmlText.
Proof.
  apply convertMarkdownToHTML_plain_text;
    unfold occurs; simpl; intuition discriminate.
Defined.

(** X23.  Cutting the markdown into sections loses nothing: the sections,
    put one after the other, are the markdown. *)
Theorem sections_concat (markdown : string) :
  String.concat "" (split [Ahead "###"] markdown) = markdown.
Proof.
  destruct markdown as [|a s]; [reflexivity|].
  unfold split. now rewrite split_from_Ahead_concat.
Qed.

(** X24.  The lines of a text joined by line feeds are the text, and the
    body of a section that opens with a ### line has one element for each
    line after that line, in order, the title line being left out; when
    nothing follows the title line the body is a single line break. *)
Theorem titled_section_body (section : string) :
  let lines := split [Lit nl] section in
  trim section <> "" ->
  startsWith (default "" (head lines)) "###" = true ->
  join nl lines = section
  /\ exists view,
       renderSection section = Some view
       /\ body view
          = renderLine <$> match tail lines with
                           | [] => [""]
                           | rest => rest
                           end.
Proof.
  cbv zeta. intros Htrim Hstart. split.
  - rewrite split_nl_from, split_from_nl_join. reflexivity.
  - unfold renderSection. destruct (trim section) as [|c t]; [congruence|].
    rewrite Hstart. eexists. split; [reflexivity|]. cbn [body]. f_equal.
    assert (Hlines : Forall (fun x => ~ occurs "010" x) (split [Lit nl] section)).
    { rewrite split_nl_from. apply split_from_nl_lines. unfold occurs. simpl. tauto. }
    destruct (split [Lit nl] section) as [|first rest]; [reflexivity|].
    cbn [tail]. destruct rest as [|line rest]; [reflexivity|].
    apply split_nl_join; [discriminate|]. now apply Forall_cons in Hlines as [_ ?].
Qed.

Lemma titled_section_body_witness :
  exists view,
    renderSection titleBoldItems = Some view
    /\ body view = renderLine <$> ["**Bold** text"; "* item1"; "* item2"].
Proof.
  refine (proj2 (titled_section_body titleBoldItems _ _)).
  - vm_compute. discriminate.
  - reflexivity.
Defined.

End report_markdown.

(** ** The first revision: a load whose aggregation throws *)

Section first_revision_load.
Import ResultsDashboardV1.
Context `{NumberFormat}.

(** X25.  When the buckets can be built but the aggregation throws (a
    category with selected regulations has no metadata), the load of the
    first revision shows the buckets and the metadata and leaves the gap list
    empty, so that the page cannot be told from one without gaps. *)
Theorem load_with_failed_aggregation (navigated stored : option AnalysisData)
    (ad : AnalysisData) (esg : list Bucket) (c : string) :
  analysisSource navigated stored = Some ad ->
  formattedEsgData (default ∅ (detailed_results ad)) = Ok esg ->
  c ∈ categories ->
  throwsFor (default ∅ (detailed_results ad)) c ->
  loadAnalysisResults navigated stored initial
  = {| esgData := Some esg; gapAnalysis := []; loading := false;
       metadata_ := Some (extractMetadata ad) |}.
Proof.
  intros Had Hesg Hin Hthrow. unfold loadAnalysisResults. rewrite Had, Hesg.
  assert (Herr : extractGapAnalysis (default ∅ (detailed_results ad)) = TypeError).
  { unfold extractGapAnalysis, collectGaps.
    assert (Hrun : forEach (processCategory (default ∅ (detailed_results ad)))
                     categories ([], 1) = TypeError)
      by (apply forEach_processCategory_throws_iff; eauto).
    now rewrite Hrun. }
  now rewrite Herr.
Qed.

End first_revision_load.

Lemma load_with_failed_aggregation_witness :
  ResultsDashboardV1.gapAnalysis
    (ResultsDashboardV1.loadAnalysisResults (H := plainFormat)
       (Some {| summary := None; detailed_results := Some noMetadataResults |}) None
       ResultsDashboardV1.initial) = [].
Proof.
  assert (Hesg : exists esg, formattedEsgData noMetadataResults = Ok esg)
    by (eexists; vm_compute; reflexivity).
  destruct Hesg as [esg Hesg].
  assert (Hin : "social" ∈ categories) by (unfold categories; set_solver).
  assert (Hthrow : throwsFor noMetadataResults "social").
  { eexists _, _. repeat split; try reflexivity. discriminate. }
  rewrite (load_with_failed_aggregation (H := plainFormat)
             (Some {| summary := None; detailed_results := Some noMetadataResults |})
             None _ esg "social" eq_refl Hesg Hin Hthrow).
  reflexivity.
Defined.
